(** * simple-app: the chat translation boundary

    A shallow embedding of the backend service ([backend/services/groq_service.py],
    [backend/models/chat_models.py], [backend/main.py]) and of the session
    controller of the frontend ([frontend/app.py]).

    Python objects that the code shares by reference (the request, its
    [history] list, the outbound [messages] list) live in a heap; the methods
    are computations in a state-and-exception monad over that heap.  A ghost
    trace records which methods and which provider calls were entered. *)

From Stdlib Require Import ZArith Floats.
From stdpp Require Import gmap strings list fin_maps pretty.

(** ** Values *)

(** An object reference. *)
Abbreviation loc := positive.

(** A Python [Dict[str, str]]. *)
Abbreviation dict := (gmap string string).

(** [backend/models/chat_models.py], class [ChatMessage]. *)
Module ChatMessage.
Record t := mk { role : string; content : string }.
End ChatMessage.

(** [backend/models/chat_models.py], class [ChatRequest].  [history] is
    [Optional[List[ChatMessage]]]: [None], or a reference to a list object. *)
Module ChatRequest.
Record t := mk {
  message : string;
  model : string;
  max_tokens : Z;
  temperature : float;
  history : option loc
}.
End ChatRequest.

(** [backend/models/chat_models.py], class [ChatResponse]. *)
Module ChatResponse.
Record t := mk {
  response : string;
  model : string;
  tokens_used : Z;
  success : bool
}.
End ChatResponse.

(** The provider's reply object ([groq] package): [completion.choices],
    [choice.message.content] (which the provider may leave [None]) and
    [completion.usage] (possibly [None]) with [usage.total_tokens]. *)
Module ChatCompletion.
Record Message := mkMessage { content : option string }.
Record Choice := mkChoice { message : Message }.
Record Usage := mkUsage { total_tokens : Z }.
Record t := mk { choices : list Choice; usage : option Usage }.
End ChatCompletion.

(** ** Exceptions

    Every constructor is a subclass of Python's [Exception], which is what
    the handlers of the source catch. *)
Inductive exn :=
| Exception (description : string)
| IndexError
| TypeError (description : string)
| AttributeError (description : string)
| ValidationError (description : string)
| KeyError (key : string)
| HTTPException (status_code : Z) (detail : string).

(** [str(e)].  For [HTTPException] this is the rendering of the web
    framework, "<status_code>: <detail>". *)
Definition str (e : exn) : string :=
  match e with
  | Exception d => d
  | IndexError => "list index out of range"
  | TypeError d => d
  | AttributeError d => d
  | ValidationError d => d
  | KeyError k => "'" +:+ k +:+ "'"
  | HTTPException c d => pretty c +:+ ": " +:+ d
  end.

Definition HTTP_500_INTERNAL_SERVER_ERROR : Z := 500.
Definition HTTP_503_SERVICE_UNAVAILABLE : Z := 503.

(** ** The store *)

Inductive pyobj :=
| PyChatRequest (r : ChatRequest.t)
| PyHistory (l : list ChatMessage.t)
| PyMessages (l : list dict).

(** Ghost events: entries of the two service methods, calls of the remote
    client with the values it is handed, and lines printed. *)
Inductive event :=
| Call_chat_completion (request : loc)
| Call_get_available_models
| Call_create (model : string) (messages : list dict)
    (max_tokens : Z) (temperature : float)
| Print (line : string).

Record world := World { heap : gmap loc pyobj; trace : list event }.

Inductive outcome (A : Type) :=
| Return (a : A)
| Raise (e : exn).
Arguments Return {A} a.
Arguments Raise {A} e.

Definition M (A : Type) : Type := world -> outcome A * world.

#[global] Instance M_ret : MRet M := fun A a w => (Return a, w).

#[global] Instance M_bind : MBind M := fun A B f m w =>
  match m w with
  | (Return a, w') => f a w'
  | (Raise e, w') => (Raise e, w')
  end.

Definition raise {A} (e : exn) : M A := fun w => (Raise e, w).

(** [try: body except Exception as e: handler e]. *)
Definition try_except {A} (body : M A) (handler : exn -> M A) : M A :=
  fun w =>
    match body w with
    | (Return a, w') => (Return a, w')
    | (Raise e, w') => handler e w'
    end.

Definition emit (ev : event) : M unit :=
  fun w => (Return tt, World (heap w) (trace w ++ [ev])).

(** [print(line)]. *)
Definition print (line : string) : M unit := emit (Print line).

(** Attribute read on the request object. *)
Definition getattr {A} (request : loc) (field : ChatRequest.t -> A) : M A :=
  fun w =>
    match heap w !! request with
    | Some (PyChatRequest r) => (Return (field r), w)
    | _ => (Raise (AttributeError "object has no such attribute"), w)
    end.

(** [messages = []]: a new list object, at an address not in use. *)
Definition new_list : M loc :=
  fun w =>
    let l := fresh (dom (heap w)) in
    (Return l, World (<[l := PyMessages []]> (heap w)) (trace w)).

(** [messages.append(d)]. *)
Definition list_append (messages : loc) (d : dict) : M unit :=
  fun w =>
    match heap w !! messages with
    | Some (PyMessages ds) =>
        (Return tt, World (<[messages := PyMessages (ds ++ [d])]> (heap w)) (trace w))
    | _ => (Raise (AttributeError "object has no attribute 'append'"), w)
    end.

(** The elements of the list that [request.history] refers to. *)
Definition list_items (l : loc) : M (list ChatMessage.t) :=
  fun w =>
    match heap w !! l with
    | Some (PyHistory msgs) => (Return msgs, w)
    | _ => (Raise (TypeError "object is not iterable"), w)
    end.

(** [for x in xs: body x]. *)
Fixpoint for_each {A} (xs : list A) (body : A -> M unit) : M unit :=
  match xs with
  | [] => mret tt
  | x :: xs' => body x;; for_each xs' body
  end.

(** [xs[0]]. *)
Definition first {A} (xs : list A) : M A :=
  match xs with
  | x :: _ => mret x
  | [] => raise IndexError
  end.

(** ** [backend/services/groq_service.py] *)

(** The remote client, [self.client.chat.completions.create].  It is handed
    the model name, the [messages] list object, [max_tokens] and
    [temperature]; it answers with a completion or raises, and it may
    change the list it was handed, so it also gives the list's contents
    after the call. *)
Record Groq := mkGroq {
  create : string -> list dict -> Z -> float -> list dict * outcome ChatCompletion.t
}.

Module GroqService.

Record t := mk { api_key : string; client : Groq }.

Section methods.

(** The text of the validation error that [ChatResponse(response=None, ...)]
    raises; it is produced by the validation library. *)
Variable response_not_a_string : string.

(** [ChatResponse(response=..., model=..., tokens_used=..., success=...)]:
    the field [response] is declared [str], so [None] is refused. *)
Definition ChatResponse_new (response : option string) (model : string)
    (tokens_used : Z) (success : bool) : M ChatResponse.t :=
  match response with
  | Some text => mret (ChatResponse.mk text model tokens_used success)
  | None => raise (ValidationError response_not_a_string)
  end.

Definition _format_messages (self : t) (request : loc) : M loc :=
  messages ← new_list;
  history ← getattr request ChatRequest.history;
  match history with
  | None => mret tt
  | Some hl =>
      items ← list_items hl;
      match items with
      | [] => mret tt
      | _ :: _ =>
          for_each items (fun msg =>
            if bool_decide (ChatMessage.role msg ∈ ["system"; "user"; "assistant"])
            then list_append messages
                   {[ "role" := ChatMessage.role msg;
                      "content" := ChatMessage.content msg ]}
            else mret tt)
      end
  end;;
  message ← getattr request ChatRequest.message;
  list_append messages {[ "role" := "user"; "content" := message ]};;
  mret messages.

(** The call of the remote client on the list object [messages]. *)
Definition call_create (self : t) (model : string) (messages : loc)
    (max_tokens : Z) (temperature : float) : M ChatCompletion.t :=
  fun w =>
    match heap w !! messages with
    | Some (PyMessages ds) =>
        let w1 := World (heap w)
                    (trace w ++ [Call_create model ds max_tokens temperature]) in
        let '(ds', r) := create (client self) model ds max_tokens temperature in
        (r, World (<[messages := PyMessages ds']> (heap w1)) (trace w1))
    | _ => (Raise (TypeError "messages is not a list"), w)
    end.

(** The first line records in the ghost trace that the method was entered;
    the rest is the method's body. *)
Definition chat_completion (self : t) (request : loc) : M ChatResponse.t :=
  emit (Call_chat_completion request);;
  try_except
    (messages ← _format_messages self request;
     model ← getattr request ChatRequest.model;
     max_tokens ← getattr request ChatRequest.max_tokens;
     temperature ← getattr request ChatRequest.temperature;
     completion ← call_create self model messages max_tokens temperature;
     choice ← first (ChatCompletion.choices completion);
     let response_content := ChatCompletion.content (ChatCompletion.message choice) in
     let tokens_used :=
       match ChatCompletion.usage completion with
       | Some usage => ChatCompletion.total_tokens usage
       | None => 0%Z
       end in
     model ← getattr request ChatRequest.model;
     ChatResponse_new response_content model tokens_used true)
    (fun e =>
       print ("Groq API error: " +:+ str e);;
       model ← getattr request ChatRequest.model;
       ChatResponse_new (Some ("Error generating response: " +:+ str e)) model 0%Z false).

(** Again with the ghost record of the entry first. *)
Definition get_available_models (self : t) : M (list string) :=
  emit Call_get_available_models;;
  mret ["llama-3.1-8b-instant"].

End methods.

End GroqService.

(** ** [backend/models/chat_models.py]: validation of a request body

    A decoded JSON body, restricted to the declared fields: each field is
    absent or carries a value of its declared type.  [history] may also be
    present with the value [null]. *)
Module RawChatMessage.
Record t := mk { role : option string; content : option string }.
End RawChatMessage.

Module RawChatRequest.
Record t := mk {
  message : option string;
  model : option string;
  max_tokens : option Z;
  temperature : option float;
  history : option (option (list RawChatMessage.t))
}.
End RawChatRequest.

(** A validated request body, before it becomes objects in the store. *)
Module ValidChatRequest.
Record t := mk {
  message : string;
  model : string;
  max_tokens : Z;
  temperature : float;
  history : option (list ChatMessage.t)
}.
End ValidChatRequest.

Definition len (s : string) : Z := Z.of_nat (String.length s).

(** [role: str = Field(...)], [content: str = Field(..., min_length=1)]. *)
Definition validate_ChatMessage (raw : RawChatMessage.t) : option ChatMessage.t :=
  match RawChatMessage.role raw, RawChatMessage.content raw with
  | Some role, Some content =>
      if (1 <=? len content)%Z then Some (ChatMessage.mk role content) else None
  | _, _ => None
  end.

Fixpoint validate_history (raws : list RawChatMessage.t) : option (list ChatMessage.t) :=
  match raws with
  | [] => Some []
  | raw :: raws' =>
      match validate_ChatMessage raw, validate_history raws' with
      | Some msg, Some msgs => Some (msg :: msgs)
      | _, _ => None
      end
  end.

Definition default_model : string := "mixtral-8x7b-32768".
Definition default_max_tokens : Z := 1000.
(** The double nearest to 0.7. *)
Definition default_temperature : float := 0x1.6666666666666p-1%float.

(** The field declarations of [ChatRequest]: [None] when a field is missing
    or out of its bounds. *)
Definition validate_ChatRequest (raw : RawChatRequest.t) : option ValidChatRequest.t :=
  match RawChatRequest.message raw with
  | None => None
  | Some message =>
      let model := default default_model (RawChatRequest.model raw) in
      let max_tokens := default default_max_tokens (RawChatRequest.max_tokens raw) in
      let temperature := default default_temperature (RawChatRequest.temperature raw) in
      let history :=
        match RawChatRequest.history raw with
        | None => Some (Some [])
        | Some None => Some None
        | Some (Some raws) => Some <$> validate_history raws
        end in
      match history with
      | None => None
      | Some history =>
          if ((1 <=? len message)%Z && (len message <=? 4000)%Z
              && (1 <=? max_tokens)%Z && (max_tokens <=? 4000)%Z
              && PrimFloat.leb 0%float temperature && PrimFloat.leb temperature 2%float)%bool
          then Some (ValidChatRequest.mk message model max_tokens temperature history)
          else None
      end
  end.

(** The validated request as objects: the history list, when there is one,
    and the request that refers to it, both at addresses not in use. *)
Definition new_ChatRequest (v : ValidChatRequest.t) : M loc :=
  fun w =>
    let h1 :=
      match ValidChatRequest.history v with
      | Some msgs => <[fresh (dom (heap w)) := PyHistory msgs]> (heap w)
      | None => heap w
      end in
    let history :=
      match ValidChatRequest.history v with
      | Some _ => Some (fresh (dom (heap w)))
      | None => None
      end in
    let request := fresh (dom h1) in
    (Return request,
     World (<[request := PyChatRequest
                (ChatRequest.mk (ValidChatRequest.message v) (ValidChatRequest.model v)
                   (ValidChatRequest.max_tokens v) (ValidChatRequest.temperature v)
                   history)]> h1)
           (trace w)).

(** ** [backend/main.py] *)

Module main.

Section endpoints.

Variable response_not_a_string : string.

(** The module-level [groq_service]: [None] until start-up has set it. *)
Variable groq_service : option GroqService.t.

(** [config.DEBUG]. *)
Variable DEBUG : bool.

(** [GET /models]; the result is the object [{"models": models}]. *)
Definition get_models : M (gmap string (list string)) :=
  match groq_service with
  | None =>
      raise (HTTPException HTTP_503_SERVICE_UNAVAILABLE "Groq service not initialized")
  | Some service =>
      models ← GroqService.get_available_models service;
      mret {[ "models" := models ]}
  end.

(** [POST /chat], on a validated request. *)
Definition chat_completion (request : loc) : M ChatResponse.t :=
  match groq_service with
  | None =>
      raise (HTTPException HTTP_503_SERVICE_UNAVAILABLE "Groq service not initialized")
  | Some service =>
      try_except
        (response ← GroqService.chat_completion response_not_a_string service request;
         if negb (ChatResponse.success response)
         then raise (HTTPException HTTP_500_INTERNAL_SERVER_ERROR
                       (ChatResponse.response response))
         else mret response)
        (fun e =>
           match e with
           | HTTPException _ _ => raise e
           | _ => raise (HTTPException HTTP_500_INTERNAL_SERVER_ERROR
                           ("Unexpected error: " +:+ str e))
           end)
  end.

(** What a client of the HTTP surface receives. *)
Inductive content :=
| ChatResponse_json (r : ChatResponse.t)
| models_json (d : gmap string (list string))
| detail_json (detail : string)
| validation_errors_json
| error_json (error detail : string).

Record JSONResponse := mkJSONResponse { status_code : Z; body : content }.

(** [global_exception_handler(request, exc)]. *)
Definition global_exception_handler (exc : exn) : JSONResponse :=
  mkJSONResponse HTTP_500_INTERNAL_SERVER_ERROR
    (error_json "Internal server error"
       (if DEBUG then str exc else "An unexpected error occurred")).

(** How the web framework turns the outcome of an endpoint into a
    response: a returned value is answered 200, an [HTTPException] with its
    status code and detail, anything else by the registered handler. *)
Definition respond {A} (json : A -> content) (r : outcome A) : JSONResponse :=
  match r with
  | Return a => mkJSONResponse 200 (json a)
  | Raise (HTTPException code detail) => mkJSONResponse code (detail_json detail)
  | Raise e => global_exception_handler e
  end.

(** [GET /models] as served. *)
Definition serve_get_models : world -> JSONResponse * world :=
  fun w => let '(r, w') := get_models w in (respond models_json r, w').

(** [POST /chat] as served: the framework validates the body against
    [ChatRequest] and answers 422 itself when that fails; the endpoint runs
    only on a validated request. *)
Definition serve_post_chat (raw : RawChatRequest.t) : world -> JSONResponse * world :=
  fun w =>
    match validate_ChatRequest raw with
    | None => (mkJSONResponse 422 validation_errors_json, w)
    | Some v =>
        match new_ChatRequest v w with
        | (Return request, w1) =>
            let '(r, w2) := chat_completion request w1 in
            (respond ChatResponse_json r, w2)
        | (Raise e, w1) => (global_exception_handler e, w1)
        end
    end.

End endpoints.

End main.

(** ** [frontend/app.py], class [StreamlitApp] *)

Module app.

(** The value of [render_chat_settings()]. *)
Record settings := mkSettings { settings_temperature : float; settings_max_tokens : Z }.

(** The JSON payload of a chat request. *)
Record payload := mkPayload {
  message : string;
  model : string;
  max_tokens : Z;
  temperature : float;
  history : list dict
}.

(** The reply of [requests.post]: its status code and what [.json()] gives
    (or raises).  Values of the decoded object are carried as strings. *)
Record Response := mkResponse { status_code : Z; json : outcome dict }.

(** [st.session_state], and the ghost list of the payloads posted so far. *)
Record session := mkSession {
  messages : list dict;
  backend_status : string;
  posted : list payload
}.

Section controller.

(** [requests.post(f"{BACKEND_URL}/chat", json=payload, timeout=30)]. *)
Variable post : payload -> outcome Response.

(** The loop that prepares [history] from [st.session_state.messages]. *)
Fixpoint prepare_history (msgs : list dict) (history : list dict) : outcome (list dict) :=
  match msgs with
  | [] => Return history
  | msg :: msgs' =>
      if bool_decide (msg !! "role" ∈ [Some "user"; Some "assistant"])
      then
        match msg !! "role", msg !! "content" with
        | Some role, Some content =>
            prepare_history msgs' (history ++ [ {[ "role" := role; "content" := content ]} ])
        | None, _ => Raise (KeyError "role")
        | _, None => Raise (KeyError "content")
        end
      else prepare_history msgs' history
  end.

Definition send_chat_request (message model : string) (settings : settings)
    (s : session) : dict * session :=
  match prepare_history (messages s) [] with
  | Raise e => ({[ "error" := "Request failed: " +:+ str e ]}, s)
  | Return history =>
      let payload :=
        mkPayload message model (settings_max_tokens settings)
          (settings_temperature settings) history in
      let s' := mkSession (messages s) (backend_status s) (posted s ++ [payload]) in
      match post payload with
      | Raise e => ({[ "error" := "Request failed: " +:+ str e ]}, s')
      | Return response =>
          if (status_code response =? 200)%Z
          then
            match json response with
            | Return data => (data, s')
            | Raise e => ({[ "error" := "Request failed: " +:+ str e ]}, s')
            end
          else
            match json response with
            | Return data =>
                let error_detail := default "Unknown error" (data !! "detail") in
                ({[ "error" := "API Error: " +:+ error_detail ]}, s')
            | Raise e => ({[ "error" := "Request failed: " +:+ str e ]}, s')
            end
      end
  end.

Definition append_message (role content : string) (s : session) : session :=
  mkSession (messages s ++ [ {[ "role" := role; "content" := content ]} ])
    (backend_status s) (posted s).

(** The chat-input block of [render_main_interface]: what one submitted
    [prompt] does to the session.  Drawing on the page is left out. *)
Definition render_main_interface_chat_input (prompt selected_model : string) (settings : settings)
    (s : session) : session :=
  if bool_decide (prompt = "") then s
  else if bool_decide (backend_status s ≠ "healthy") then s
  else
    let s1 := append_message "user" prompt s in
    let '(response, s2) := send_chat_request prompt selected_model settings s1 in
    match response !! "error" with
    | Some error_msg => append_message "assistant" ("Error: " +:+ error_msg) s2
    | None =>
        let assistant_response := default "No response generated." (response !! "response") in
        append_message "assistant" assistant_response s2
    end.

End controller.

End app.
(** ** Reading the store *)

(** The request object at [request] is [req], and its [history], when it is
    not [None], refers to a list of chat messages. *)
Definition request_at (w : world) (request : loc) (req : ChatRequest.t) : Prop :=
  heap w !! request = Some (PyChatRequest req) /\
  forall hl, ChatRequest.history req = Some hl ->
    exists msgs, heap w !! hl = Some (PyHistory msgs).

(** The entries of [request.history] in world [w] ([None] has none). *)
Definition history_entries (w : world) (req : ChatRequest.t) : list ChatMessage.t :=
  match ChatRequest.history req with
  | Some hl =>
      match heap w !! hl with
      | Some (PyHistory msgs) => msgs
      | _ => []
      end
  | None => []
  end.

(** The contents of the list object at [l]. *)
Definition messages_at (w : world) (l : loc) : option (list dict) :=
  match heap w !! l with
  | Some (PyMessages ds) => Some ds
  | _ => None
  end.

Definition allowed_role (msg : ChatMessage.t) : Prop :=
  ChatMessage.role msg ∈ ["system"; "user"; "assistant"].

#[global] Instance allowed_role_dec msg : Decision (allowed_role msg).
Proof. unfold allowed_role. apply _. Defined.

Definition to_dict (msg : ChatMessage.t) : dict :=
  {[ "role" := ChatMessage.role msg; "content" := ChatMessage.content msg ]}.

Definition user_turn (text : string) : dict :=
  {[ "role" := "user"; "content" := text ]}.

(** The outbound sequence for a request: the entries of its history with an
    allowed role, as dictionaries and in order, then the new user turn. *)
Definition outbound (w : world) (req : ChatRequest.t) : list dict :=
  (to_dict <$> filter allowed_role (history_entries w req))
  ++ [user_turn (ChatRequest.message req)].

(** The text of the first choice of a completion, when it has one. *)
Definition generated_text (completion : ChatCompletion.t) : option string :=
  match ChatCompletion.choices completion with
  | choice :: _ => ChatCompletion.content (ChatCompletion.message choice)
  | [] => None
  end.

(** [usage.total_tokens], or 0 when [usage] is [None]. *)
Definition usage_total (completion : ChatCompletion.t) : Z :=
  match ChatCompletion.usage completion with
  | Some usage => ChatCompletion.total_tokens usage
  | None => 0%Z
  end.

(** What the [try] block of [chat_completion] comes to once the remote call
    has given [r]. *)
Definition try_block_result (response_not_a_string model : string)
    (r : outcome ChatCompletion.t) : outcome ChatResponse.t :=
  match r with
  | Raise e => Raise e
  | Return completion =>
      match ChatCompletion.choices completion with
      | [] => Raise IndexError
      | choice :: _ =>
          match ChatCompletion.content (ChatCompletion.message choice) with
          | None => Raise (ValidationError response_not_a_string)
          | Some text => Return (ChatResponse.mk text model (usage_total completion) true)
          end
      end
  end.

Definition error_response (model : string) (e : exn) : ChatResponse.t :=
  ChatResponse.mk ("Error generating response: " +:+ str e) model 0%Z false.

(** The events that one run of [chat_completion] adds to the trace. *)
Definition chat_completion_events (response_not_a_string : string) (request : loc)
    (req : ChatRequest.t) (ds : list dict) (r : outcome ChatCompletion.t) : list event :=
  [Call_chat_completion request;
   Call_create (ChatRequest.model req) ds (ChatRequest.max_tokens req)
     (ChatRequest.temperature req)]
  ++ match try_block_result response_not_a_string (ChatRequest.model req) r with
     | Return _ => []
     | Raise e => [Print ("Groq API error: " +:+ str e)]
     end.

(** ** Sample data *)

Definition sample_history : list ChatMessage.t :=
  [ChatMessage.mk "bogus" "x"; ChatMessage.mk "user" "hi"].

Definition sample_request : ChatRequest.t :=
  ChatRequest.mk "there" default_model 1000 default_temperature (Some 1%positive).

(** A store with the history list at address 1 and the request at 2. *)
Definition sample_world : world :=
  World (<[2%positive := PyChatRequest sample_request]>
           (<[1%positive := PyHistory sample_history]> ∅)) [].

(** A client stubbed to succeed with text "T" and usage total 5. *)
Definition stub_succeeds : Groq :=
  mkGroq (fun _ ds _ _ =>
    (ds, Return (ChatCompletion.mk
                   [ChatCompletion.mkChoice (ChatCompletion.mkMessage (Some "T"))]
                   (Some (ChatCompletion.mkUsage 5))))).

(** A client stubbed to raise. *)
Definition stub_raises : Groq :=
  mkGroq (fun _ ds _ _ => (ds, Raise (Exception "connection refused"))).

(** ** The session controller: reading a transcript *)

(** The entry that [render_main_interface] appends after a failed call. *)
Definition error_placeholder (error_msg : string) : dict :=
  {[ "role" := "assistant"; "content" := "Error: " +:+ error_msg ]}.

(** The test of the history loop: [msg.get("role") in ["user", "assistant"]]. *)
Definition sent_role (msg : dict) : Prop :=
  msg !! "role" ∈ [Some "user"; Some "assistant"].

#[global] Instance sent_role_dec msg : Decision (sent_role msg).
Proof. unfold sent_role. apply _. Defined.

(** [{"role": msg["role"], "content": msg["content"]}]. *)
Definition role_and_content (msg : dict) : dict :=
  {[ "role" := default "" (msg !! "role"); "content" := default "" (msg !! "content") ]}.

(** A backend that answers every chat request with status 500 and the
    detail "boom". *)
Definition post_fails : app.payload -> outcome app.Response :=
  fun _ => Return (app.mkResponse 500 (Return {[ "detail" := "boom" ]})).

Definition sample_settings : app.settings := app.mkSettings default_temperature 1000.

(** A new session with a healthy backend, and the same session after the
    prompts "hi" and then "again". *)
Definition session0 : app.session := app.mkSession [] "healthy" [].

Definition session1 : app.session :=
  app.render_main_interface_chat_input post_fails "hi" "llama-3.1-8b-instant" sample_settings session0.

Definition session2 : app.session :=
  app.render_main_interface_chat_input post_fails "again" "llama-3.1-8b-instant" sample_settings session1.


(** * Further code of the repository

    Start-up and configuration of the backend, the rest of the session
    controller and of its page components, and the setup checks of
    [validate_setup.py]. *)

(** A client whose completion has no choices. *)
Definition stub_no_choices : Groq :=
  mkGroq (fun _ ds _ _ => (ds, Return (ChatCompletion.mk [] None))).

(** The lines printed among a list of events. *)
Definition is_print (ev : event) : Prop :=
  match ev with
  | Print _ => True
  | _ => False
  end.

(** A chat message as it appears in a decoded body. *)
Definition raw_of (msg : ChatMessage.t) : RawChatMessage.t :=
  RawChatMessage.mk (Some (ChatMessage.role msg)) (Some (ChatMessage.content msg)).

(** The messages handed to the remote client for a validated body. *)
Definition outbound_of (v : ValidChatRequest.t) : list dict :=
  (to_dict <$> filter allowed_role (default [] (ValidChatRequest.history v)))
  ++ [user_turn (ValidChatRequest.message v)].

(** What [POST /chat] answers once the remote call has given [r]. *)
Definition served_for (validation_text model : string)
    (r : outcome ChatCompletion.t) : main.JSONResponse :=
  match r with
  | Raise e =>
      main.mkJSONResponse 500 (main.detail_json ("Error generating response: " +:+ str e))
  | Return completion =>
      match generated_text completion with
      | Some text =>
          main.mkJSONResponse 200
            (main.ChatResponse_json
               (ChatResponse.mk text model (usage_total completion) true))
      | None =>
          main.mkJSONResponse 500
            (main.detail_json
               ("Error generating response: " +:+
                match ChatCompletion.choices completion with
                | [] => "list index out of range"
                | _ :: _ => validation_text
                end))
      end
  end.

(** A body that names only its message. *)
Definition body_hi : RawChatRequest.t :=
  RawChatRequest.mk (Some "hi") None None None None.

(** ** Exceptions raised at start-up

    No handler of the modelled code tells these classes from other
    exceptions; only [str(e)] is read, which is the message. *)
Definition ValueError (message : string) : exn := Exception message.
Definition RuntimeError (message : string) : exn := Exception message.

(** [separator.join(items)]. *)
Fixpoint join (separator : string) (items : list string) : string :=
  match items with
  | [] => ""
  | [item] => item
  | item :: items' => item +:+ separator +:+ join separator items'
  end.

(** ** [backend/utils/config.py] *)

Module config.

(** The class attributes of [Config], read from the environment when the
    module is imported. *)
Record Config := mkConfig {
  APP_NAME : string;
  APP_VERSION : string;
  DEBUG : bool;
  HOST : string;
  PORT : Z;
  GROQ_API_KEY : string;
  ALLOWED_ORIGINS : list string
}.

(** The truth value of [getattr(cls, var)]. *)
Definition getattr_truth (cls : Config) (var : string) : M bool :=
  if bool_decide (var = "APP_NAME") then mret (negb (bool_decide (APP_NAME cls = "")))
  else if bool_decide (var = "APP_VERSION") then mret (negb (bool_decide (APP_VERSION cls = "")))
  else if bool_decide (var = "DEBUG") then mret (DEBUG cls)
  else if bool_decide (var = "HOST") then mret (negb (bool_decide (HOST cls = "")))
  else if bool_decide (var = "PORT") then mret (negb (PORT cls =? 0)%Z)
  else if bool_decide (var = "GROQ_API_KEY") then mret (negb (bool_decide (GROQ_API_KEY cls = "")))
  else if bool_decide (var = "ALLOWED_ORIGINS")
       then mret (negb (bool_decide (ALLOWED_ORIGINS cls = [])))
  else raise (AttributeError ("type object 'Config' has no attribute '" +:+ var +:+ "'")).

(** The loop of [validate_config] over [required_vars]. *)
Fixpoint collect_missing (cls : Config) (vars missing_vars : list string) : M (list string) :=
  match vars with
  | [] => mret missing_vars
  | var :: vars' =>
      present ← getattr_truth cls var;
      collect_missing cls vars' (if (present : bool) then missing_vars else missing_vars ++ [var])
  end.

Definition validate_config (cls : Config) : M bool :=
  let required_vars := ["GROQ_API_KEY"] in
  missing_vars ← collect_missing cls required_vars [];
  match missing_vars with
  | [] => mret true
  | _ :: _ =>
      print ("Missing required environment variables: " +:+ join ", " missing_vars);;
      mret false
  end.

End config.

(** ** [backend/services/groq_service.py]: [GroqService.__init__]

    [Groq_new] is the constructor of the remote client, [environ] the
    process environment. *)
Definition GroqService__init__ (Groq_new : string -> outcome Groq)
    (environ : gmap string string) (api_key : option string) : outcome GroqService.t :=
  let self_api_key :=
    match api_key with
    | Some key => if bool_decide (key = "") then environ !! "GROQ_API_KEY" else Some key
    | None => environ !! "GROQ_API_KEY"
    end in
  match self_api_key with
  | Some key =>
      if bool_decide (key = "")
      then Raise (ValueError "Groq API key is required. Set GROQ_API_KEY environment variable.")
      else
        match Groq_new key with
        | Return client => Return (GroqService.mk key client)
        | Raise e => Raise e
        end
  | None => Raise (ValueError "Groq API key is required. Set GROQ_API_KEY environment variable.")
  end.

(** ** [backend/main.py]: [startup_event]

    The module-level [groq_service] is passed in and its value after the
    call is given back beside the outcome. *)
Definition startup_event (Groq_new : string -> outcome Groq) (environ : gmap string string)
    (cfg : config.Config) (groq_service : option GroqService.t)
    : world -> (outcome unit * option GroqService.t) * world :=
  fun w =>
    match config.validate_config cfg w with
    | (Raise e, w1) => ((Raise e, groq_service), w1)
    | (Return false, w1) =>
        ((Raise (RuntimeError "Invalid configuration. Please check environment variables."),
          groq_service), w1)
    | (Return true, w1) =>
        match GroqService__init__ Groq_new environ (Some (config.GROQ_API_KEY cfg)) with
        | Return service =>
            let '(_, w2) :=
              print ("✅ " +:+ config.APP_NAME cfg +:+ " started successfully!") w1 in
            ((Return tt, Some service), w2)
        | Raise e =>
            let '(_, w2) := print ("❌ Failed to initialize Groq service: " +:+ str e) w1 in
            ((Raise (RuntimeError ("Failed to initialize Groq service: " +:+ str e)),
              groq_service), w2)
        end
    end.

(** A configuration with a key, and one without. *)
Definition sample_config : config.Config :=
  config.mkConfig "Simple Groq App" "1.0.0" false "0.0.0.0" 8000 "gsk_sample"
    ["http://localhost:8501"].

Definition keyless_config : config.Config :=
  config.mkConfig "Simple Groq App" "1.0.0" false "0.0.0.0" 8000 ""
    ["http://localhost:8501"].

(** A client constructor that always succeeds. *)
Definition Groq_new_ok : string -> outcome Groq := fun _ => Return stub_succeeds.

(** ** [frontend/components/chat_interface.py] *)

Module chat_interface.

(** [items.index(x)]: the position of the first occurrence, or
    [ValueError]. *)
Fixpoint index (x : string) (items : list string) : outcome nat :=
  match items with
  | [] => Raise (ValueError ("'" +:+ x +:+ "' is not in list"))
  | item :: items' =>
      if bool_decide (item = x) then Return 0
      else
        match index x items' with
        | Return i => Return (S i)
        | Raise e => Raise e
        end
  end.

(** The options and the preselected position that [render_model_selector]
    hands to [st.selectbox]. *)
Definition selectbox_arguments (available_models : list string) (default_model : string)
    : outcome (list string * nat) :=
  let available_models :=
    match available_models with
    | [] => [default_model]
    | _ :: _ => available_models
    end in
  if bool_decide (default_model ∉ available_models)
  then Return (available_models, 0)
  else
    match index default_model available_models with
    | Return i => Return (available_models, i)
    | Raise e => Raise e
    end.

(** [render_model_selector(available_models, default_model)]; [selectbox]
    is the widget: from the options and the preselected position to the
    option that is selected. *)
Definition render_model_selector (selectbox : list string -> nat -> string)
    (available_models : list string) (default_model : string) : outcome string :=
  match selectbox_arguments available_models default_model with
  | Return (options, i) => Return (selectbox options i)
  | Raise e => Raise e
  end.

(** [render_chat_history(messages)], as far as it can fail: drawing a
    message reads [message['content']]. *)
Fixpoint render_chat_history (messages : list dict) : outcome unit :=
  match messages with
  | [] => Return tt
  | message :: messages' =>
      match message !! "content" with
      | Some _ => render_chat_history messages'
      | None => Raise (KeyError "content")
      end
  end.

End chat_interface.

(** ** [frontend/app.py]: the rest of [StreamlitApp] *)

Module StreamlitApp.

(** The reply of [requests.get(f"{BACKEND_URL}/models")]. *)
Record ModelsResponse := mkModelsResponse {
  status_code : Z;
  json : outcome (gmap string (list string))
}.

(** [st.session_state]: the transcript, the backend status and the posted
    payloads as before, and [available_models]. *)
Record state := mkState { session : app.session; available_models : list string }.

Definition set_backend_status (status : string) (s : state) : state :=
  mkState
    (app.mkSession (app.messages (session s)) status (app.posted (session s)))
    (available_models s).

(** [check_backend_health]; [get_health] is the status code of the reply
    to [GET /health], or what the request raised. *)
Definition check_backend_health (get_health : outcome Z) (s : state) : bool * state :=
  match get_health with
  | Return code =>
      if (code =? 200)%Z
      then (true, set_backend_status "healthy" s)
      else (false, set_backend_status "unhealthy" s)
  | Raise e => (false, set_backend_status ("error: " +:+ str e) s)
  end.

(** [fetch_available_models]. *)
Definition fetch_available_models (get_models : outcome ModelsResponse) (s : state)
    : list string * state :=
  match get_models with
  | Return response =>
      if (status_code response =? 200)%Z
      then
        match json response with
        | Return data =>
            let models := default ["mixtral-8x7b-32768"] (data !! "models") in
            (models, mkState (session s) models)
        | Raise e => (["mixtral-8x7b-32768"], s)
        end
      else (["mixtral-8x7b-32768"], s)
  | Raise e => (["mixtral-8x7b-32768"], s)
  end.

(** What the page and the network give during one run of the script: the
    buttons pressed, the slider values, the behaviour of the select box,
    the submitted prompt (empty when none), and the replies of the
    backend. *)
Record inputs := mkInputs {
  refresh_status : bool;
  clear_chat : bool;
  refresh_models : bool;
  settings : app.settings;
  selectbox : list string -> nat -> string;
  prompt : string;
  get_health : outcome Z;
  get_models : outcome ModelsResponse;
  get_models_again : outcome ModelsResponse;
  post : app.payload -> outcome app.Response
}.

(** [render_main_interface], on a session state that
    [initialize_session_state] has filled.  A run ends early where the
    script calls [st.rerun()] or an exception leaves the method. *)
Definition render_main_interface (i : inputs) (s : state) : state :=
  let s1 :=
    if bool_decide (app.backend_status (session s) = "unknown")
    then
      let '(health_ok, s') := check_backend_health (get_health i) s in
      if health_ok then (fetch_available_models (get_models i) s').2 else s'
    else s in
  if clear_chat i
  then mkState (app.mkSession [] (app.backend_status (session s1)) (app.posted (session s1)))
         (available_models s1)
  else
    let s2 :=
      if refresh_models i then (fetch_available_models (get_models_again i) s1).2 else s1 in
    match chat_interface.render_model_selector (selectbox i) (available_models s2)
            "mixtral-8x7b-32768" with
    | Raise e => s2
    | Return selected_model =>
        match chat_interface.render_chat_history (app.messages (session s2)) with
        | Raise e => s2
        | Return _ =>
            mkState
              (app.render_main_interface_chat_input (post i) (prompt i) selected_model
                 (settings i) (session s2))
              (available_models s2)
        end
    end.

(** [run]: the header with its "Refresh Status" button, then the main
    interface. *)
Definition run (i : inputs) (s : state) : state :=
  if refresh_status i
  then (check_backend_health (get_health i) s).2
  else render_main_interface i s.

(** A sequence of runs of the script, one per interaction. *)
Fixpoint runs (interactions : list inputs) (s : state) : state :=
  match interactions with
  | [] => s
  | i :: interactions' => runs interactions' (run i s)
  end.

End StreamlitApp.

(** A transcript entry with the keys "role" and "content". *)
Definition entry (role content : string) : dict :=
  {[ "role" := role; "content" := content ]}.

(** An entry that the history loop reads has its "content". *)
Definition readable (msg : dict) : Prop :=
  sent_role msg -> is_Some (msg !! "content").

#[global] Instance readable_dec msg : Decision (readable msg).
Proof. unfold readable. apply _. Defined.

(** A session whose transcript holds an assistant entry without content. *)
Definition session_without_content : app.session :=
  app.mkSession [ {[ "role" := "assistant" ]} ] "healthy" [].

(** A state whose health check has failed, and a run in which a prompt is
    submitted while every request would succeed. *)
Definition offline_state : StreamlitApp.state :=
  StreamlitApp.mkState (app.mkSession [entry "user" "earlier"] "unhealthy" [])
    ["mixtral-8x7b-32768"].

Definition eager_inputs : StreamlitApp.inputs :=
  StreamlitApp.mkInputs false false true sample_settings
    (fun options i => default "" (options !! i)) "hello"
    (Return 200%Z)
    (Return (StreamlitApp.mkModelsResponse 200
               (Return {[ "models" := ["llama-3.1-8b-instant"] ]})))
    (Return (StreamlitApp.mkModelsResponse 200
               (Return {[ "models" := ["llama-3.1-8b-instant"] ]})))
    (fun _ => Return (app.mkResponse 200 (Return {[ "response" := "T" ]}))).

(** ** From the frontend to the backend

    The body that the backend decodes from the JSON which
    [requests.post(..., json=payload)] sends: every field of the payload is
    present, and each history entry gives its "role" and "content". *)
Definition json_body (p : app.payload) : RawChatRequest.t :=
  RawChatRequest.mk (Some (app.message p)) (Some (app.model p))
    (Some (app.max_tokens p)) (Some (app.temperature p))
    (Some (Some ((fun d : dict => RawChatMessage.mk (d !! "role") (d !! "content"))
                   <$> app.history p))).

(** A session in which the assistant has answered with the empty text. *)
Definition session_empty_answer : app.session :=
  app.mkSession [entry "user" "hi"; entry "assistant" ""] "healthy" [].

(** ** [validate_setup.py] *)

Module validate_setup.





(** What [importlib.import_module] does with a name: it imports the
    module, raises [ImportError], or raises something else. *)
Inductive import_result :=
| Imported
| ImportError
| OtherError (e : exn).

(** [package.replace("_", ".")]. *)
Fixpoint replace_underscores (package : string) : string :=
  match package with
  | EmptyString => EmptyString
  | String c rest =>
      (if bool_decide (String c EmptyString = "_") then "." else String c EmptyString)
      +:+ replace_underscores rest
  end.

(** The loop of [check_required_packages]. *)
Fixpoint check_packages (import_module : string -> import_result)
    (packages : list string) (all_success : bool) (messages : list string)
    : outcome (bool * list string) :=
  match packages with
  | [] => Return (all_success, messages)
  | package :: packages' =>
      match import_module (replace_underscores package) with
      | Imported =>
          check_packages import_module packages' all_success
            (messages ++ ["✅ " +:+ package])
      | ImportError =>
          check_packages import_module packages' false
            (messages ++ ["❌ " +:+ package +:+ " (missing)"])
      | OtherError e => Raise e
      end
  end.

Definition required_packages : list string :=
  ["fastapi"; "uvicorn"; "streamlit"; "groq"; "pydantic"; "requests"; "python_dotenv"].

Definition check_required_packages (import_module : string -> import_result)
    : outcome (bool * list string) :=
  check_packages import_module required_packages true [].

End validate_setup.

(** An environment where every module that can be named is importable
    except those of a package called [python]. *)
Definition import_all_but_python (name : string) : validate_setup.import_result :=
  if bool_decide (name = "python.dotenv") then validate_setup.ImportError
  else validate_setup.Imported.


(** An entry as the controller writes them: a "user" or an "assistant"
    entry with a content. *)
Definition chat_entry (msg : dict) : Prop :=
  exists role content,
    msg = entry role content /\ (role = "user" \/ role = "assistant").

(** The state of a new session. *)
Definition new_state : StreamlitApp.state :=
  StreamlitApp.mkState (app.mkSession [] "unknown" []) ["mixtral-8x7b-32768"].

(** ** Proofs: the monad *)

Lemma bind_Return {A B} (m : M A) (f : A -> M B) w a w' :
  m w = (Return a, w') -> (m ≫= f) w = f a w'.
Proof. intros H. unfold mbind, M_bind. by rewrite H. Qed.

Lemma bind_Raise {A B} (m : M A) (f : A -> M B) w e w' :
  m w = (Raise e, w') -> (m ≫= f) w = (Raise e, w').
Proof. intros H. unfold mbind, M_bind. by rewrite H. Qed.

Lemma getattr_Return {A} w request req (field : ChatRequest.t -> A) :
  heap w !! request = Some (PyChatRequest req) ->
  getattr request field w = (Return (field req), w).
Proof. intros H. unfold getattr. by rewrite H. Qed.

Lemma list_append_Return w l ds d :
  heap w !! l = Some (PyMessages ds) ->
  list_append l d w =
    (Return tt, World (<[l := PyMessages (ds ++ [d])]> (heap w)) (trace w)).
Proof. intros H. unfold list_append. by rewrite H. Qed.

(** ** Proofs: [_format_messages] *)

(** The loop appends, in order, the dictionaries of the entries with an
    allowed role to the list at [l]; nothing else changes. *)
Lemma for_each_filter (l : loc) (items : list ChatMessage.t) :
  forall w ds,
    heap w !! l = Some (PyMessages ds) ->
    for_each items (fun msg =>
        if bool_decide (ChatMessage.role msg ∈ ["system"; "user"; "assistant"])
        then list_append l
               {[ "role" := ChatMessage.role msg;
                  "content" := ChatMessage.content msg ]}
        else mret tt) w =
      (Return tt,
       World (<[l := PyMessages (ds ++ (to_dict <$> filter allowed_role items))]> (heap w))
             (trace w)).
Proof.
  induction items as [|msg items IH]; intros w ds Hl; simpl.
  - rewrite app_nil_r, insert_id by done. by destruct w.
  - rewrite filter_cons. unfold allowed_role at 1.
    case_bool_decide as Hrole.
    + erewrite bind_Return by (by apply list_append_Return).
      erewrite IH by (simpl; apply lookup_insert_eq).
      simpl. rewrite insert_insert_eq.
      rewrite decide_True by done.
      by rewrite <- app_assoc.
    + erewrite bind_Return by reflexivity.
      rewrite decide_False by done. by apply IH.
Qed.

Lemma fresh_not_in_heap (w : world) : heap w !! fresh (dom (heap w)) = None.
Proof. apply not_elem_of_dom, is_fresh. Qed.

Lemma format_messages_spec self w request req :
  request_at w request req ->
  GroqService._format_messages self request w =
    (Return (fresh (dom (heap w))),
     World (<[fresh (dom (heap w)) :=
               PyMessages ((to_dict <$> filter allowed_role (history_entries w req))
                           ++ [user_turn (ChatRequest.message req)])]> (heap w))
           (trace w)).
Proof.
  intros [Hreq Hhist].
  pose proof (fresh_not_in_heap w) as Hfresh.
  set (m := fresh (dom (heap w))) in *.
  assert (Hm : m <> request) by (intros ->; congruence).
  unfold GroqService._format_messages.
  erewrite bind_Return by reflexivity. fold m.
  set (w1 := World (<[m := PyMessages []]> (heap w)) (trace w)).
  assert (Hreq1 : heap w1 !! request = Some (PyChatRequest req))
    by (simpl; by rewrite lookup_insert_ne).
  erewrite bind_Return by (by apply getattr_Return).
  unfold history_entries.
  destruct (ChatRequest.history req) as [hl|] eqn:Hh.
  - destruct (Hhist hl eq_refl) as [msgs Hmsgs]. rewrite Hmsgs.
    assert (Hhl : m <> hl) by (intros ->; congruence).
    assert (Hitems : list_items hl w1 = (Return msgs, w1)).
    { unfold list_items. simpl. by rewrite lookup_insert_ne, Hmsgs. }
    assert (Hstep : forall ds,
      (message ← getattr request ChatRequest.message;
       list_append m {[ "role" := "user"; "content" := message ]};; mret m)
        (World (<[m := PyMessages ds]> (heap w)) (trace w)) =
      (Return m, World (<[m := PyMessages (ds ++ [user_turn (ChatRequest.message req)])]> (heap w))
                       (trace w))).
    { intros ds.
      erewrite bind_Return by (apply getattr_Return; simpl; by rewrite lookup_insert_ne).
      erewrite bind_Return by (apply list_append_Return; simpl; apply lookup_insert_eq).
      simpl. by rewrite insert_insert_eq. }
    destruct msgs as [|msg msgs].
    + erewrite bind_Return by (erewrite bind_Return by exact Hitems; reflexivity).
      apply (Hstep []).
    + erewrite bind_Return; cycle 1.
      { erewrite bind_Return by exact Hitems.
        apply (for_each_filter m (msg :: msgs) w1 []). simpl. apply lookup_insert_eq. }
      simpl heap. rewrite insert_insert_eq. simpl trace. apply Hstep.
  - erewrite bind_Return by reflexivity.
    erewrite bind_Return by (by apply getattr_Return).
    erewrite bind_Return by (apply list_append_Return; simpl; apply lookup_insert_eq).
    simpl. by rewrite insert_insert_eq.
Qed.

(** ** Proofs: [chat_completion] *)

Lemma try_except_Return {A} (body : M A) handler w a w' :
  body w = (Return a, w') -> try_except body handler w = (Return a, w').
Proof. intros H. unfold try_except. by rewrite H. Qed.

Lemma try_except_Raise {A} (body : M A) handler w e w' :
  body w = (Raise e, w') -> try_except body handler w = handler e w'.
Proof. intros H. unfold try_except. by rewrite H. Qed.

(** One run of [chat_completion], in full: the response, the one list
    object it allocates, and the events it adds. *)
Lemma chat_completion_run validation_text self w request req ds' r :
  request_at w request req ->
  create (GroqService.client self) (ChatRequest.model req) (outbound w req)
    (ChatRequest.max_tokens req) (ChatRequest.temperature req) = (ds', r) ->
  GroqService.chat_completion validation_text self request w =
    (Return match try_block_result validation_text (ChatRequest.model req) r with
            | Return resp => resp
            | Raise e => error_response (ChatRequest.model req) e
            end,
     World (<[fresh (dom (heap w)) := PyMessages ds']> (heap w))
           (trace w ++ chat_completion_events validation_text request req (outbound w req) r)).
Proof.
  intros Hat Hcreate.
  pose proof Hat as [Hreq _].
  pose proof (fresh_not_in_heap w) as Hfresh.
  set (m := fresh (dom (heap w))) in *.
  assert (Hm : m <> request) by (intros ->; congruence).
  unfold GroqService.chat_completion.
  erewrite bind_Return by reflexivity.
  set (w0 := World (heap w) (trace w ++ [Call_chat_completion request])).
  assert (Hat0 : request_at w0 request req) by exact Hat.
  pose proof (format_messages_spec self w0 request req Hat0) as Hfmt.
  change (history_entries w0 req) with (history_entries w req) in Hfmt.
  fold (outbound w req) in Hfmt. simpl in Hfmt. fold m in Hfmt.
  set (w1 := World (<[m := PyMessages (outbound w req)]> (heap w)) (trace w0)) in *.
  assert (Hget : forall A (field : ChatRequest.t -> A) tr h ds,
    h = <[m := PyMessages ds]> (heap w) ->
    getattr request field (World h tr) = (Return (field req), World h tr)).
  { intros A field tr h ds ->. apply getattr_Return. simpl. by rewrite lookup_insert_ne. }
  assert (Hcall : GroqService.call_create self (ChatRequest.model req) m
            (ChatRequest.max_tokens req) (ChatRequest.temperature req) w1 =
          (r, World (<[m := PyMessages ds']> (heap w))
                (trace w0 ++ [Call_create (ChatRequest.model req) (outbound w req)
                                (ChatRequest.max_tokens req) (ChatRequest.temperature req)]))).
  { unfold GroqService.call_create. simpl. rewrite lookup_insert_eq, Hcreate.
    by rewrite insert_insert_eq. }
  set (w2 := World (<[m := PyMessages ds']> (heap w))
                (trace w0 ++ [Call_create (ChatRequest.model req) (outbound w req)
                                (ChatRequest.max_tokens req) (ChatRequest.temperature req)])) in *.
  assert (Htry :
    (messages ← GroqService._format_messages self request;
     model ← getattr request ChatRequest.model;
     max_tokens ← getattr request ChatRequest.max_tokens;
     temperature ← getattr request ChatRequest.temperature;
     completion ← GroqService.call_create self model messages max_tokens temperature;
     choice ← first (ChatCompletion.choices completion);
     let response_content := ChatCompletion.content (ChatCompletion.message choice) in
     let tokens_used :=
       match ChatCompletion.usage completion with
       | Some usage => ChatCompletion.total_tokens usage
       | None => 0%Z
       end in
     model ← getattr request ChatRequest.model;
     GroqService.ChatResponse_new validation_text response_content model tokens_used true) w0
    = (try_block_result validation_text (ChatRequest.model req) r, w2)).
  { erewrite bind_Return by exact Hfmt.
    do 3 (erewrite bind_Return by (by eapply Hget)).
    destruct r as [completion|e].
    - erewrite bind_Return by exact Hcall.
      unfold try_block_result.
      destruct (ChatCompletion.choices completion) as [|choice choices]; [done|].
      erewrite bind_Return by reflexivity. simpl.
      erewrite bind_Return by (by eapply Hget).
      by destruct (ChatCompletion.content (ChatCompletion.message choice)).
    - by erewrite bind_Raise by exact Hcall. }
  unfold chat_completion_events.
  destruct (try_block_result validation_text (ChatRequest.model req) r) as [resp|e] eqn:Hres.
  - erewrite try_except_Return by exact Htry.
    subst w2 w0. simpl. by rewrite <- app_assoc.
  - erewrite try_except_Raise by exact Htry.
    erewrite bind_Return by reflexivity.
    erewrite bind_Return by (by eapply Hget).
    subst w2 w0. simpl. unfold error_response. by rewrite <- !app_assoc.
Qed.

(** ** Proofs: the session controller *)

Lemma prepare_history_spec (msgs : list dict) :
  forall history,
    Forall (fun msg : dict => is_Some (msg !! "content")) msgs ->
    app.prepare_history msgs history =
      Return (history ++ (role_and_content <$> filter sent_role msgs)).
Proof.
  induction msgs as [|msg msgs IH]; intros history Hall; simpl.
  - by rewrite app_nil_r.
  - apply Forall_cons in Hall as [[content Hcontent] Hall].
    rewrite filter_cons. unfold sent_role at 1.
    case_bool_decide as Hrole.
    + rewrite decide_True by done.
      destruct (msg !! "role") as [role|] eqn:Hr.
      * rewrite Hcontent, IH by done. rewrite <- app_assoc. simpl.
        unfold role_and_content. by rewrite Hr, Hcontent.
      * exfalso. revert Hrole. rewrite !elem_of_cons, elem_of_nil.
        intros [Hu | [Ha | []]]; [discriminate Hu | discriminate Ha].
    + rewrite decide_False by done. by apply IH.
Qed.

Lemma error_placeholder_kept (error_msg : string) :
  sent_role (error_placeholder error_msg) /\
  role_and_content (error_placeholder error_msg) = error_placeholder error_msg.
Proof.
  assert (Hr : error_placeholder error_msg !! "role" = Some "assistant")
    by apply lookup_insert_eq.
  assert (Hc : error_placeholder error_msg !! "content" = Some ("Error: " +:+ error_msg)).
  { unfold error_placeholder. rewrite lookup_insert_ne by done. apply lookup_singleton_eq. }
  split.
  - unfold sent_role. rewrite Hr. set_solver.
  - unfold role_and_content. by rewrite Hr, Hc.
Qed.

(** ** Proofs: the sample store *)

Lemma sample_request_at : request_at sample_world 2%positive sample_request.
Proof. split; [reflexivity|]. intros hl [= <-]. by exists sample_history. Qed.

(** ** The claims *)

(** C1. For every request, [_format_messages] returns a list object whose
    contents are exactly the history entries with role "system", "user" or
    "assistant", in their order, followed by the user turn carrying
    [request.message]; entries with another role are left out. *)
Theorem C1_format_messages_filters_history self w request req :
  request_at w request req ->
  exists messages w',
    GroqService._format_messages self request w = (Return messages, w') /\
    messages_at w' messages =
      Some ((to_dict <$> filter allowed_role (history_entries w req))
            ++ [user_turn (ChatRequest.message req)]).
Proof.
  intros Hat. eexists _, _. split.
  - by apply format_messages_spec.
  - unfold messages_at. simpl. by rewrite lookup_insert_eq.
Qed.

(** The example of the specification: history [bogus "x"; user "hi"] and
    message "there" give [user "hi"; user "there"]. *)
Lemma C1_sample :
  request_at sample_world 2%positive sample_request /\
  exists messages w',
    GroqService._format_messages (GroqService.mk "key" stub_succeeds) 2%positive sample_world
      = (Return messages, w') /\
    messages_at w' messages =
      Some [ {[ "role" := "user"; "content" := "hi" ]};
             {[ "role" := "user"; "content" := "there" ]} ].
Proof.
  assert (H : request_at sample_world 2%positive sample_request).
  { split; [reflexivity|]. intros hl [= <-]. by exists sample_history. }
  split; [exact H|].
  exact (C1_format_messages_filters_history (GroqService.mk "key" stub_succeeds)
           sample_world 2%positive sample_request H).
Defined.

(** C2. For every request, [chat_completion] returns a response whose
    [model] is the request's; and when the remote call succeeds with a
    completion that carries a generated text, the response is that text,
    the request's model, the usage total (0 when [usage] is [None]) and
    [success = True]. *)
Theorem C2_chat_completion_success validation_text self w request req :
  request_at w request req ->
  (exists resp w',
     GroqService.chat_completion validation_text self request w = (Return resp, w') /\
     ChatResponse.model resp = ChatRequest.model req) /\
  (forall ds' completion generated,
     create (GroqService.client self) (ChatRequest.model req) (outbound w req)
       (ChatRequest.max_tokens req) (ChatRequest.temperature req)
       = (ds', Return completion) ->
     generated_text completion = Some generated ->
     exists w',
       GroqService.chat_completion validation_text self request w =
         (Return (ChatResponse.mk generated (ChatRequest.model req)
                    (usage_total completion) true), w')).
Proof.
  intros Hat. split.
  - destruct (create (GroqService.client self) (ChatRequest.model req) (outbound w req)
                (ChatRequest.max_tokens req) (ChatRequest.temperature req))
      as [ds' r] eqn:Hcreate.
    eexists _, _. split; [by eapply chat_completion_run|].
    destruct r as [completion|e]; simpl; [|done].
    destruct (ChatCompletion.choices completion) as [|choice ?]; [done|].
    by destruct (ChatCompletion.content (ChatCompletion.message choice)).
  - intros ds' completion generated Hcreate Hgen.
    eexists. erewrite chat_completion_run by done.
    unfold generated_text in Hgen. simpl.
    destruct (ChatCompletion.choices completion) as [|choice ?]; [done|].
    by rewrite Hgen.
Qed.

(** The example of the specification: a client stubbed to succeed with
    text "T" and usage total 5. *)
Lemma C2_sample :
  request_at sample_world 2%positive sample_request /\
  exists w',
    GroqService.chat_completion "invalid" (GroqService.mk "key" stub_succeeds)
      2%positive sample_world =
    (Return (ChatResponse.mk "T" "mixtral-8x7b-32768" 5 true), w').
Proof.
  split; [exact sample_request_at|].
  exact (proj2 (C2_chat_completion_success "invalid" (GroqService.mk "key" stub_succeeds)
                  sample_world 2%positive sample_request sample_request_at)
           _ _ "T" eq_refl eq_refl).
Defined.

(** C3. For every request, when the remote call raises, [chat_completion]
    does not raise: it returns the response with [success = False],
    [tokens_used = 0], the request's model, and the text
    "Error generating response: " followed by the description of the
    failure.  And every run returns a response for which [success = False]
    implies [tokens_used = 0] and a text that starts with
    "Error generating response: ". *)
Theorem C3_chat_completion_failure validation_text self w request req :
  request_at w request req ->
  (forall ds' e,
     create (GroqService.client self) (ChatRequest.model req) (outbound w req)
       (ChatRequest.max_tokens req) (ChatRequest.temperature req)
       = (ds', Raise e) ->
     exists w',
       GroqService.chat_completion validation_text self request w =
         (Return (ChatResponse.mk ("Error generating response: " +:+ str e)
                    (ChatRequest.model req) 0 false), w')) /\
  (exists resp w',
     GroqService.chat_completion validation_text self request w = (Return resp, w') /\
     (ChatResponse.success resp = false ->
      ChatResponse.tokens_used resp = 0%Z /\
      exists description,
        ChatResponse.response resp = "Error generating response: " +:+ description)).
Proof.
  intros Hat. split.
  - intros ds' e Hcreate. eexists. erewrite chat_completion_run by done. reflexivity.
  - destruct (create (GroqService.client self) (ChatRequest.model req) (outbound w req)
                (ChatRequest.max_tokens req) (ChatRequest.temperature req))
      as [ds' r] eqn:Hcreate.
    eexists _, _. split; [by eapply chat_completion_run|].
    destruct (try_block_result validation_text (ChatRequest.model req) r) as [resp|e] eqn:Hres.
    + intros Hfalse. exfalso. revert Hres Hfalse. unfold try_block_result.
      destruct r as [completion|e]; [|done].
      destruct (ChatCompletion.choices completion) as [|choice ?]; [done|].
      destruct (ChatCompletion.content (ChatCompletion.message choice)); [|done].
      by intros [= <-].
    + intros _. split; [done|]. by exists (str e).
Qed.

(** A client stubbed to raise "connection refused". *)
Lemma C3_sample :
  request_at sample_world 2%positive sample_request /\
  exists w',
    GroqService.chat_completion "invalid" (GroqService.mk "key" stub_raises)
      2%positive sample_world =
    (Return (ChatResponse.mk "Error generating response: connection refused"
               "mixtral-8x7b-32768" 0 false), w').
Proof.
  split; [exact sample_request_at|].
  exact (proj1 (C3_chat_completion_failure "invalid" (GroqService.mk "key" stub_raises)
                  sample_world 2%positive sample_request sample_request_at)
           _ (Exception "connection refused") eq_refl).
Defined.

(** C4, as the code has it. Before a user turn is sent, the transcript is
    projected into the [history] of the payload by keeping exactly the
    entries whose role is "user" or "assistant", in order, each with its
    role and content; an "Error: ..." assistant entry that stands for a
    failed call is such an entry and is kept. *)
Theorem C4_history_keeps_user_and_assistant post message model settings s :
  Forall (fun msg : dict => is_Some (msg !! "content")) (app.messages s) ->
  exists p response,
    app.send_chat_request post message model settings s =
      (response, app.mkSession (app.messages s) (app.backend_status s) (app.posted s ++ [p])) /\
    app.message p = message /\
    app.history p = role_and_content <$> filter sent_role (app.messages s) /\
    forall error_msg,
      error_placeholder error_msg ∈ app.messages s ->
      error_placeholder error_msg ∈ app.history p.
Proof.
  intros Hall. unfold app.send_chat_request.
  rewrite prepare_history_spec by done. simpl.
  eexists (app.mkPayload message model _ _ _).
  assert (Hkept : forall error_msg,
    error_placeholder error_msg ∈ app.messages s ->
    error_placeholder error_msg ∈ role_and_content <$> filter sent_role (app.messages s)).
  { intros error_msg Hin. destruct (error_placeholder_kept error_msg) as [Hrole Heq].
    rewrite <- Heq at 1. apply list_elem_of_fmap_2. by apply list_elem_of_filter. }
  destruct (post _) as [response|e]; [|by eexists].
  destruct (app.status_code response =? 200)%Z, (app.json response); by eexists.
Qed.

(** The transcript after one failed call, sent with the next prompt. *)
Lemma C4_sample :
  Forall (fun msg : dict => is_Some (msg !! "content")) (app.messages session1) /\
  exists p response,
    app.send_chat_request post_fails "again" "llama-3.1-8b-instant" sample_settings session1 =
      (response,
       app.mkSession (app.messages session1) (app.backend_status session1)
         (app.posted session1 ++ [p])) /\
    app.message p = "again" /\
    app.history p = role_and_content <$> filter sent_role (app.messages session1) /\
    forall error_msg,
      error_placeholder error_msg ∈ app.messages session1 ->
      error_placeholder error_msg ∈ app.history p.
Proof.
  assert (H : Forall (fun msg : dict => is_Some (msg !! "content")) (app.messages session1)).
  { repeat constructor; by eexists. }
  split; [exact H|].
  exact (C4_history_keeps_user_and_assistant post_fails "again" "llama-3.1-8b-instant"
           sample_settings session1 H).
Defined.

(** C4 as stated fails. A first prompt "hi" answered with status 500
    leaves the entry "Error: API Error: boom" in the transcript, and the
    request posted for the next prompt carries that entry in its history. *)
Lemma C4_error_placeholder_is_sent :
  app.messages session1 =
    [ {[ "role" := "user"; "content" := "hi" ]}; error_placeholder "API Error: boom" ] /\
  ~ (forall p, p ∈ app.posted session2 ->
       error_placeholder "API Error: boom" ∉ app.history p).
Proof.
  split; [reflexivity|].
  intros Hclaim.
  apply (Hclaim (app.mkPayload "again" "llama-3.1-8b-instant" 1000 default_temperature
                   [ {[ "role" := "user"; "content" := "hi" ]};
                     error_placeholder "API Error: boom";
                     {[ "role" := "user"; "content" := "again" ]} ])).
  - apply list_elem_of_In. right. left. reflexivity.
  - apply list_elem_of_In. right. left. reflexivity.
Qed.

(** C5. A [POST /chat] body whose [message] is the empty string fails
    validation and is answered 422, a client error; the store and the trace
    are as before, so neither [chat_completion] nor the remote client has
    been called. *)
Theorem C5_empty_message_rejected validation_text groq_service DEBUG raw w :
  RawChatRequest.message raw = Some "" ->
  validate_ChatRequest raw = None /\
  main.serve_post_chat validation_text groq_service DEBUG raw w =
    (main.mkJSONResponse 422 main.validation_errors_json, w) /\
  (400 <= main.status_code (main.serve_post_chat validation_text groq_service DEBUG raw w).1 < 500)%Z.
Proof.
  intros Hmsg.
  assert (Hv : validate_ChatRequest raw = None).
  { unfold validate_ChatRequest. rewrite Hmsg.
    by destruct (match RawChatRequest.history raw with
                 | None => Some (Some [])
                 | Some None => Some None
                 | Some (Some raws) => Some <$> validate_history raws
                 end). }
  unfold main.serve_post_chat. rewrite Hv. simpl. repeat split; lia.
Qed.

(** The body [{"message": ""}] sent to an initialized service. *)
Lemma C5_sample :
  RawChatRequest.message (RawChatRequest.mk (Some "") None None None None) = Some "" /\
  main.serve_post_chat "invalid" (Some (GroqService.mk "key" stub_succeeds)) false
    (RawChatRequest.mk (Some "") None None None None) sample_world =
    (main.mkJSONResponse 422 main.validation_errors_json, sample_world).
Proof.
  split; [reflexivity|].
  exact (proj1 (proj2 (C5_empty_message_rejected "invalid"
           (Some (GroqService.mk "key" stub_succeeds)) false
           (RawChatRequest.mk (Some "") None None None None) sample_world eq_refl))).
Defined.

(** C6. While [groq_service] is [None], the endpoints of [POST /chat] and
    [GET /models] raise the 503 "service unavailable" exception at once, in
    an unchanged world, and the responses served carry status 503; no
    method of the service is entered, whatever the body of the request. *)
Theorem C6_uninitialized_service_503 validation_text DEBUG w :
  (forall request,
     main.chat_completion validation_text None request w =
       (Raise (HTTPException 503 "Groq service not initialized"), w)) /\
  main.get_models None w =
    (Raise (HTTPException 503 "Groq service not initialized"), w) /\
  main.serve_get_models None DEBUG w =
    (main.mkJSONResponse 503 (main.detail_json "Groq service not initialized"), w) /\
  (forall raw v,
     validate_ChatRequest raw = Some v ->
     exists w',
       main.serve_post_chat validation_text None DEBUG raw w =
         (main.mkJSONResponse 503 (main.detail_json "Groq service not initialized"), w') /\
       trace w' = trace w) /\
  (forall raw, trace (main.serve_post_chat validation_text None DEBUG raw w).2 = trace w).
Proof.
  split; [done|]. split; [done|]. split; [done|]. split.
  - intros raw v Hv. unfold main.serve_post_chat. rewrite Hv.
    eexists. split; reflexivity.
  - intros raw. unfold main.serve_post_chat.
    by destruct (validate_ChatRequest raw).
Qed.

(** A valid body sent while the service is not initialized. *)
Lemma C6_sample :
  validate_ChatRequest (RawChatRequest.mk (Some "hi") None None None None)
    = Some (ValidChatRequest.mk "hi" default_model 1000 default_temperature (Some [])) /\
  exists w',
    main.serve_post_chat "invalid" None false
      (RawChatRequest.mk (Some "hi") None None None None) sample_world =
      (main.mkJSONResponse 503 (main.detail_json "Groq service not initialized"), w') /\
    trace w' = trace sample_world.
Proof.
  split; [reflexivity|].
  exact (proj1 (proj2 (proj2 (proj2
           (C6_uninitialized_service_503 "invalid" false sample_world))))
           (RawChatRequest.mk (Some "hi") None None None None) _ eq_refl).
Defined.

(** C7. Whenever the service returns a response with [success = False],
    the endpoint of [POST /chat] raises the 500 exception whose detail is
    the response's text, and the response served has status 500 (not 200)
    with that detail; 500 is not the 503 of an uninitialized service. *)
Theorem C7_failure_becomes_500 validation_text service DEBUG request w resp w' :
  GroqService.chat_completion validation_text service request w = (Return resp, w') ->
  ChatResponse.success resp = false ->
  main.chat_completion validation_text (Some service) request w =
    (Raise (HTTPException 500 (ChatResponse.response resp)), w') /\
  main.respond DEBUG main.ChatResponse_json
      (main.chat_completion validation_text (Some service) request w).1 =
    main.mkJSONResponse 500 (main.detail_json (ChatResponse.response resp)) /\
  HTTP_500_INTERNAL_SERVER_ERROR <> 200%Z /\
  HTTP_500_INTERNAL_SERVER_ERROR <> HTTP_503_SERVICE_UNAVAILABLE.
Proof.
  intros Hrun Hfalse.
  assert (Hmain : main.chat_completion validation_text (Some service) request w =
            (Raise (HTTPException 500 (ChatResponse.response resp)), w')).
  { unfold main.chat_completion, try_except.
    erewrite bind_Return by exact Hrun. by rewrite Hfalse. }
  rewrite Hmain. by repeat split.
Qed.

(** The sample request, with a client that raises. *)
Lemma C7_sample :
  exists resp w',
    GroqService.chat_completion "invalid" (GroqService.mk "key" stub_raises)
      2%positive sample_world = (Return resp, w') /\
    ChatResponse.success resp = false /\
    main.chat_completion "invalid" (Some (GroqService.mk "key" stub_raises))
      2%positive sample_world =
    (Raise (HTTPException 500 "Error generating response: connection refused"), w').
Proof.
  pose proof (chat_completion_run "invalid" (GroqService.mk "key" stub_raises)
                sample_world 2%positive sample_request _ _
                sample_request_at eq_refl) as Hrun.
  eexists _, _. split; [exact Hrun|]. split; [reflexivity|].
  exact (proj1 (C7_failure_becomes_500 "invalid" (GroqService.mk "key" stub_raises) false
                  2%positive sample_world _ _ Hrun eq_refl)).
Defined.

(** C8. [get_available_models] returns the fixed list
    ["llama-3.1-8b-instant"] whatever the service object and the world; it
    leaves the store as it is and calls no remote client, so any two calls
    give equal results. *)
Theorem C8_models_catalog_static self1 self2 w1 w2 :
  GroqService.get_available_models self1 w1 =
    (Return ["llama-3.1-8b-instant"],
     World (heap w1) (trace w1 ++ [Call_get_available_models])) /\
  (GroqService.get_available_models self1 w1).1 =
    (GroqService.get_available_models self2 w2).1.
Proof. split; reflexivity. Qed.

(** C9. The default of [ChatRequest.model], "mixtral-8x7b-32768", which
    validation fills in when a body names no model, is not a member of the
    list that [get_available_models] returns. *)
Theorem C9_default_model_not_in_catalog self w raw v models w' :
  validate_ChatRequest raw = Some v ->
  RawChatRequest.model raw = None ->
  GroqService.get_available_models self w = (Return models, w') ->
  ValidChatRequest.model v = "mixtral-8x7b-32768" /\
  ValidChatRequest.model v ∉ models.
Proof.
  intros Hv Hmodel [= <- _].
  assert (Hdefault : ValidChatRequest.model v = "mixtral-8x7b-32768").
  { revert Hv. unfold validate_ChatRequest. rewrite Hmodel.
    destruct (RawChatRequest.message raw) as [message|]; [|done].
    destruct (match RawChatRequest.history raw with
              | None => Some (Some [])
              | Some None => Some None
              | Some (Some raws) => Some <$> validate_history raws
              end) as [history|]; [|done].
    case_match; [|done]. by intros [= <-]. }
  split; [exact Hdefault|].
  rewrite Hdefault. intros [Heq | Hnil%elem_of_nil]%elem_of_cons; [discriminate Heq | exact Hnil].
Qed.

(** The body [{"message": "hi"}], which names no model. *)
Lemma C9_sample :
  validate_ChatRequest (RawChatRequest.mk (Some "hi") None None None None)
    = Some (ValidChatRequest.mk "hi" default_model 1000 default_temperature (Some [])) /\
  "mixtral-8x7b-32768" ∉ ["llama-3.1-8b-instant"].
Proof.
  split; [reflexivity|].
  exact (proj2 (C9_default_model_not_in_catalog (GroqService.mk "key" stub_succeeds)
                  sample_world (RawChatRequest.mk (Some "hi") None None None None)
                  _ _ _ eq_refl eq_refl eq_refl)).
Defined.

(** C10. For every request, on success and on failure alike,
    [chat_completion] leaves the request object (its message, model,
    max_tokens, temperature and history reference) and the history list as
    they were: the only object it writes is the [messages] list that it
    allocates itself, at an address that was not in use. *)
Theorem C10_chat_completion_leaves_request validation_text self w request req :
  request_at w request req ->
  exists resp w' messages,
    GroqService.chat_completion validation_text self request w = (Return resp, w') /\
    heap w' !! request = Some (PyChatRequest req) /\
    history_entries w' req = history_entries w req /\
    (forall l, l ∈ dom (heap w) -> heap w' !! l = heap w !! l) /\
    (messages ∉ dom (heap w)) /\
    is_Some (messages_at w' messages) /\
    dom (heap w') = {[messages]} ∪ dom (heap w).
Proof.
  intros Hat.
  destruct (create (GroqService.client self) (ChatRequest.model req) (outbound w req)
              (ChatRequest.max_tokens req) (ChatRequest.temperature req))
    as [ds' r] eqn:Hcreate.
  pose proof (is_fresh (dom (heap w))) as Hfresh.
  assert (Hframe : forall l, l ∈ dom (heap w) ->
            <[fresh (dom (heap w)) := PyMessages ds']> (heap w) !! l = heap w !! l).
  { intros l Hl. apply lookup_insert_ne. by intros <-. }
  destruct Hat as [Hreq Hhist].
  eexists _, _, (fresh (dom (heap w))).
  split; [by eapply chat_completion_run|]. simpl.
  split; [|split; [|split; [|split; [|split]]]].
  - rewrite Hframe; [done|]. by apply elem_of_dom.
  - unfold history_entries. simpl.
    destruct (ChatRequest.history req) as [hl|] eqn:Hh; [|done].
    destruct (Hhist hl eq_refl) as [msgs Hmsgs].
    rewrite Hframe; [done|]. by apply elem_of_dom.
  - exact Hframe.
  - exact Hfresh.
  - unfold messages_at. simpl. rewrite lookup_insert_eq. by eexists.
  - apply dom_insert_L.
Qed.

(** On the sample request, with a client that raises. *)
Lemma C10_sample :
  request_at sample_world 2%positive sample_request /\
  exists resp w' messages,
    GroqService.chat_completion "invalid" (GroqService.mk "key" stub_raises)
      2%positive sample_world = (Return resp, w') /\
    heap w' !! 2%positive = Some (PyChatRequest sample_request) /\
    history_entries w' sample_request = history_entries sample_world sample_request /\
    (forall l, l ∈ dom (heap sample_world) -> heap w' !! l = heap sample_world !! l) /\
    (messages ∉ dom (heap sample_world)) /\
    is_Some (messages_at w' messages) /\
    dom (heap w') = {[messages]} ∪ dom (heap sample_world).
Proof.
  split; [exact sample_request_at|].
  exact (C10_chat_completion_leaves_request "invalid" (GroqService.mk "key" stub_raises)
           sample_world 2%positive sample_request sample_request_at).
Defined.

(** * Further properties *)

(** ** [GroqService.chat_completion] *)

Lemma request_at_after_run w request req ds' :
  request_at w request req ->
  request_at (World (<[fresh (dom (heap w)) := PyMessages ds']> (heap w)) (trace w ++ []))
    request req /\
  forall tr,
    outbound (World (<[fresh (dom (heap w)) := PyMessages ds']> (heap w)) tr) req
      = outbound w req.
Proof.
  intros [Hreq Hhist].
  pose proof (fresh_not_in_heap w) as Hfresh.
  assert (Hframe : forall l v, heap w !! l = Some v ->
            <[fresh (dom (heap w)) := PyMessages ds']> (heap w) !! l = Some v).
  { intros l v Hl. rewrite lookup_insert_ne; [done|]. intros <-. congruence. }
  split.
  - split; simpl; [by apply Hframe|].
    intros hl Hh. destruct (Hhist hl Hh) as [msgs Hmsgs]. exists msgs. by apply Hframe.
  - intros tr. unfold outbound, history_entries. simpl.
    destruct (ChatRequest.history req) as [hl|] eqn:Hh; [|done].
    destruct (Hhist hl eq_refl) as [msgs Hmsgs]. by rewrite (Hframe _ _ Hmsgs), Hmsgs.
Qed.

(** X1. Running [chat_completion] twice in a row on the same request gives
    the same response both times: the first run leaves nothing behind that
    the second one reads. *)
Theorem X1_chat_completion_repeatable validation_text self w request req r1 w1 r2 w2 :
  request_at w request req ->
  GroqService.chat_completion validation_text self request w = (r1, w1) ->
  GroqService.chat_completion validation_text self request w1 = (r2, w2) ->
  r1 = r2 /\ request_at w2 request req.
Proof.
  intros Hat Hrun1 Hrun2.
  destruct (create (GroqService.client self) (ChatRequest.model req) (outbound w req)
              (ChatRequest.max_tokens req) (ChatRequest.temperature req))
    as [ds' r] eqn:Hcreate.
  rewrite (chat_completion_run _ _ _ _ _ _ _ Hat Hcreate) in Hrun1.
  injection Hrun1 as <- <-.
  destruct (request_at_after_run w request req ds' Hat) as [Hat1 Hout].
  set (w1 := World (<[fresh (dom (heap w)) := PyMessages ds']> (heap w))
               (trace w ++ chat_completion_events validation_text request req
                             (outbound w req) r)) in *.
  assert (Hat1' : request_at w1 request req) by exact Hat1.
  assert (Hcreate1 : create (GroqService.client self) (ChatRequest.model req)
            (outbound w1 req) (ChatRequest.max_tokens req) (ChatRequest.temperature req)
          = (ds', r)) by (unfold w1; by rewrite Hout).
  rewrite (chat_completion_run _ _ _ _ _ _ _ Hat1' Hcreate1) in Hrun2.
  injection Hrun2 as <- <-. split; [done|].
  by destruct (request_at_after_run w1 request req ds' Hat1').
Qed.

(** Two runs on the sample request with a client that raises. *)
Lemma X1_sample :
  exists r1 w1 r2 w2,
    request_at sample_world 2%positive sample_request /\
    GroqService.chat_completion "invalid" (GroqService.mk "key" stub_raises)
      2%positive sample_world = (r1, w1) /\
    GroqService.chat_completion "invalid" (GroqService.mk "key" stub_raises)
      2%positive w1 = (r2, w2) /\
    r1 = r2.
Proof.
  eexists _, _, _, _.
  split; [exact sample_request_at|].
  split; [reflexivity|]. split; [reflexivity|].
  exact (proj1 (X1_chat_completion_repeatable "invalid" (GroqService.mk "key" stub_raises)
                  sample_world 2%positive sample_request _ _ _ _
                  sample_request_at eq_refl eq_refl)).
Defined.

(** X2. One run of [chat_completion] calls the remote client exactly
    once, with the request's model, the assembled messages, and the
    request's [max_tokens] and [temperature]; whether the call succeeds or
    fails there is no second attempt: the only other events are printed
    lines. *)
Theorem X2_chat_completion_single_attempt validation_text self w request req resp w' :
  request_at w request req ->
  GroqService.chat_completion validation_text self request w = (resp, w') ->
  exists printed,
    trace w' =
      trace w ++
      [Call_chat_completion request;
       Call_create (ChatRequest.model req) (outbound w req)
         (ChatRequest.max_tokens req) (ChatRequest.temperature req)]
      ++ printed /\
    Forall is_print printed.
Proof.
  intros Hat Hrun.
  destruct (create (GroqService.client self) (ChatRequest.model req) (outbound w req)
              (ChatRequest.max_tokens req) (ChatRequest.temperature req))
    as [ds' r] eqn:Hcreate.
  rewrite (chat_completion_run _ _ _ _ _ _ _ Hat Hcreate) in Hrun.
  injection Hrun as <- <-. simpl. unfold chat_completion_events.
  destruct (try_block_result validation_text (ChatRequest.model req) r) as [resp|e];
    eexists; (split; [reflexivity|]); repeat constructor.
Qed.

(** The sample request with the client that succeeds: nothing is printed. *)
Lemma X2_sample :
  exists resp w',
    request_at sample_world 2%positive sample_request /\
    GroqService.chat_completion "invalid" (GroqService.mk "key" stub_succeeds)
      2%positive sample_world = (resp, w') /\
    exists printed,
      trace w' =
        trace sample_world ++
        [Call_chat_completion 2%positive;
         Call_create "mixtral-8x7b-32768" (outbound sample_world sample_request)
           1000 default_temperature]
        ++ printed /\
      Forall is_print printed.
Proof.
  eexists _, _. split; [exact sample_request_at|]. split; [reflexivity|].
  exact (X2_chat_completion_single_attempt "invalid" (GroqService.mk "key" stub_succeeds)
           sample_world 2%positive sample_request _ _ sample_request_at eq_refl).
Defined.

(** X3. A reply of the provider that cannot be used is reported like a
    failed call: a completion without choices gives the response
    "Error generating response: list index out of range", and a first
    choice whose content is [None] gives "Error generating response: "
    followed by the validation error's text; both with [success = False]
    and [tokens_used = 0], whatever usage the completion reports. *)
Theorem X3_malformed_completion_is_failure validation_text self w request req ds' completion :
  request_at w request req ->
  create (GroqService.client self) (ChatRequest.model req) (outbound w req)
    (ChatRequest.max_tokens req) (ChatRequest.temperature req)
    = (ds', Return completion) ->
  generated_text completion = None ->
  exists w',
    GroqService.chat_completion validation_text self request w =
      (Return (ChatResponse.mk
                 ("Error generating response: " +:+
                  match ChatCompletion.choices completion with
                  | [] => "list index out of range"
                  | _ :: _ => validation_text
                  end)
                 (ChatRequest.model req) 0 false), w').
Proof.
  intros Hat Hcreate Hgen. eexists.
  rewrite (chat_completion_run _ _ _ _ _ _ _ Hat Hcreate).
  unfold generated_text in Hgen. simpl.
  destruct (ChatCompletion.choices completion) as [|choice ?]; [reflexivity|].
  by rewrite Hgen.
Qed.

(** The sample request with a client whose completion has no choices. *)
Lemma X3_sample :
  request_at sample_world 2%positive sample_request /\
  exists w',
    GroqService.chat_completion "invalid" (GroqService.mk "key" stub_no_choices)
      2%positive sample_world =
    (Return (ChatResponse.mk "Error generating response: list index out of range"
               "mixtral-8x7b-32768" 0 false), w').
Proof.
  split; [exact sample_request_at|].
  exact (X3_malformed_completion_is_failure "invalid" (GroqService.mk "key" stub_no_choices)
           sample_world 2%positive sample_request _ _ sample_request_at eq_refl eq_refl).
Defined.

(** ** Validation of a request body *)

Lemma validate_history_spec raws msgs :
  validate_history raws = Some msgs <->
  raws = raw_of <$> msgs /\
  Forall (fun msg => (1 <= len (ChatMessage.content msg))%Z) msgs.
Proof.
  revert msgs. induction raws as [|raw raws IH]; intros msgs; simpl.
  - split.
    + intros [= <-]. by split.
    + intros [Heq _]. by destruct msgs.
  - unfold validate_ChatMessage.
    destruct raw as [[role|] [content|]]; simpl;
      try (split; [done | intros [Heq _]; by destruct msgs]).
    destruct (1 <=? len content)%Z eqn:Hlen.
    + destruct (validate_history raws) as [msgs'|].
      * split.
        -- intros [= <-]. destruct (proj1 (IH msgs') eq_refl) as [-> Hall].
           split; [done|]. constructor; [|done]. simpl. by apply Z.leb_le.
        -- intros [Heq Hall]. destruct msgs as [|[role' content'] msgs]; [done|].
           injection Heq as -> -> ->. apply Forall_cons in Hall as [_ Hall].
           by pose proof (proj2 (IH msgs) (conj eq_refl Hall)) as [= ->].
      * split; [done|]. intros [Heq Hall].
        destruct msgs as [|[role' content'] msgs]; [done|].
        injection Heq as -> -> ->. apply Forall_cons in Hall as [_ Hall].
        by pose proof (proj2 (IH msgs) (conj eq_refl Hall)).
    + split; [done|]. intros [Heq Hall].
      destruct msgs as [|[role' content'] msgs]; [done|].
      injection Heq as -> -> ->. apply Forall_cons in Hall as [Hc _].
      simpl in Hc. apply Z.leb_le in Hc. congruence.
Qed.



(** ** [POST /chat] as served *)

(** The objects made from a validated body: the request is in the store
    with the body's fields, its history list holds the body's history, and
    nothing is added to the trace. *)
Lemma new_ChatRequest_spec v w :
  exists request req w1,
    new_ChatRequest v w = (Return request, w1) /\
    request_at w1 request req /\
    ChatRequest.message req = ValidChatRequest.message v /\
    ChatRequest.model req = ValidChatRequest.model v /\
    ChatRequest.max_tokens req = ValidChatRequest.max_tokens v /\
    ChatRequest.temperature req = ValidChatRequest.temperature v /\
    history_entries w1 req = default [] (ValidChatRequest.history v) /\
    trace w1 = trace w.
Proof.
  unfold new_ChatRequest.
  destruct (ValidChatRequest.history v) as [msgs|] eqn:Hh.
  - set (hl := fresh (dom (heap w))).
    set (h1 := <[hl := PyHistory msgs]> (heap w)).
    set (request := fresh (dom h1)).
    assert (Hne : request <> hl).
    { intros Heq. apply (is_fresh (dom h1)). fold request. rewrite Heq.
      unfold h1. rewrite dom_insert_L. set_solver. }
    assert (Hhl : <[request := PyChatRequest
                      (ChatRequest.mk (ValidChatRequest.message v) (ValidChatRequest.model v)
                         (ValidChatRequest.max_tokens v) (ValidChatRequest.temperature v)
                         (Some hl))]> h1 !! hl = Some (PyHistory msgs)).
    { rewrite lookup_insert_ne by done. apply lookup_insert_eq. }
    eexists _, _, _. split; [reflexivity|]. split.
    { split; simpl; [apply lookup_insert_eq|]. intros ? [= <-]. by exists msgs. }
    repeat split. unfold history_entries. simpl. by rewrite Hhl.
  - eexists _, _, _. split; [reflexivity|]. split.
    { split; simpl; [apply lookup_insert_eq|]. done. }
    by repeat split.
Qed.

Lemma try_block_result_served validation_text model r :
  main.respond false main.ChatResponse_json
    (match try_block_result validation_text model r with
     | Return resp => Return resp
     | Raise e =>
         Raise (HTTPException 500 ("Error generating response: " +:+ str e))
     end)
  = served_for validation_text model r.
Proof.
  unfold try_block_result, served_for, generated_text.
  destruct r as [completion|e]; [|done].
  destruct (ChatCompletion.choices completion) as [|choice ?]; [done|].
  by destruct (ChatCompletion.content (ChatCompletion.message choice)).
Qed.

(** The endpoint on a request in the store, with the service initialized. *)
Lemma main_chat_completion_run validation_text service w request req ds' r :
  request_at w request req ->
  create (GroqService.client service) (ChatRequest.model req) (outbound w req)
    (ChatRequest.max_tokens req) (ChatRequest.temperature req) = (ds', r) ->
  main.chat_completion validation_text (Some service) request w =
    (match try_block_result validation_text (ChatRequest.model req) r with
     | Return resp => Return resp
     | Raise e =>
         Raise (HTTPException 500 ("Error generating response: " +:+ str e))
     end,
     World (<[fresh (dom (heap w)) := PyMessages ds']> (heap w))
           (trace w ++ chat_completion_events validation_text request req (outbound w req) r)).
Proof.
  intros Hat Hcreate. unfold main.chat_completion, try_except.
  erewrite bind_Return by (by eapply chat_completion_run).
  unfold try_block_result.
  destruct r as [completion|e]; [|done].
  destruct (ChatCompletion.choices completion) as [|choice ?]; [done|].
  by destruct (ChatCompletion.content (ChatCompletion.message choice)).
Qed.

(** X5. [POST /chat] with a body that passes validation, on an initialized
    service: the remote client is called exactly once, with the validated
    model, messages, [max_tokens] and [temperature]; the answer is 200 with
    the generated text, the model and the usage total when the call gives
    a text, and otherwise 500 whose detail is "Error generating response: "
    followed by the description of the failure.  The "Unexpected error"
    branch of the endpoint and the global handler are never taken. *)
Theorem X5_post_chat_served validation_text service DEBUG raw v w ds' r :
  validate_ChatRequest raw = Some v ->
  create (GroqService.client service) (ValidChatRequest.model v) (outbound_of v)
    (ValidChatRequest.max_tokens v) (ValidChatRequest.temperature v) = (ds', r) ->
  exists w' request printed,
    main.serve_post_chat validation_text (Some service) DEBUG raw w =
      (served_for validation_text (ValidChatRequest.model v) r, w') /\
    trace w' =
      trace w ++
      [Call_chat_completion request;
       Call_create (ValidChatRequest.model v) (outbound_of v)
         (ValidChatRequest.max_tokens v) (ValidChatRequest.temperature v)]
      ++ printed /\
    Forall is_print printed.
Proof.
  intros Hv Hcreate. unfold main.serve_post_chat. rewrite Hv.
  destruct (new_ChatRequest_spec v w)
    as (request & req & w1 & -> & Hat & Hmsg & Hmodel & Hmax & Htemp & Hhist & Htrace).
  assert (Hout : outbound w1 req = outbound_of v)
    by (unfold outbound, outbound_of; by rewrite Hhist, Hmsg).
  rewrite <- Hmodel, <- Hmax, <- Htemp, <- Hout in Hcreate.
  rewrite (main_chat_completion_run _ _ _ _ _ _ _ Hat Hcreate).
  rewrite <- Hmodel, <- Hmax, <- Htemp, <- Hout.
  eexists _, request, _. split; [|split].
  - f_equal. rewrite <- try_block_result_served.
    by destruct (try_block_result validation_text (ChatRequest.model req) r).
  - simpl. rewrite Htrace. unfold chat_completion_events. reflexivity.
  - destruct (try_block_result validation_text (ChatRequest.model req) r);
      repeat constructor.
Qed.

(** The body [{"message": "hi"}] with the client that answers "T". *)
Lemma X5_sample :
  validate_ChatRequest body_hi
    = Some (ValidChatRequest.mk "hi" default_model 1000 default_temperature (Some [])) /\
  exists w',
    main.serve_post_chat "invalid" (Some (GroqService.mk "key" stub_succeeds)) false
      body_hi sample_world =
    (main.mkJSONResponse 200
       (main.ChatResponse_json (ChatResponse.mk "T" "mixtral-8x7b-32768" 5 true)), w').
Proof.
  split; [reflexivity|].
  destruct (X5_post_chat_served "invalid" (GroqService.mk "key" stub_succeeds) false
              body_hi _ sample_world _ _ eq_refl eq_refl)
    as (w' & _ & _ & Hserved & _).
  exists w'. exact Hserved.
Defined.

(** X6. Whatever the body and whether or not the service is initialized,
    [POST /chat] is answered with status 200, 422, 500 or 503, and the
    answer does not depend on the debug flag: no exception of this route
    reaches the global handler, so no exception text is served through
    it. *)
Theorem X6_post_chat_statuses validation_text groq_service DEBUG raw w :
  main.status_code (main.serve_post_chat validation_text groq_service DEBUG raw w).1
    ∈ [200; 422; 500; 503]%Z /\
  main.serve_post_chat validation_text groq_service DEBUG raw w =
    main.serve_post_chat validation_text groq_service (negb DEBUG) raw w.
Proof.
  unfold main.serve_post_chat.
  destruct (validate_ChatRequest raw) as [v|] eqn:Hv; [|split; [set_solver|done]].
  destruct (new_ChatRequest_spec v w) as (request & req & w1 & -> & Hat & _).
  destruct groq_service as [service|]; [|split; [set_solver|done]].
  destruct (create (GroqService.client service) (ChatRequest.model req) (outbound w1 req)
              (ChatRequest.max_tokens req) (ChatRequest.temperature req))
    as [ds' r] eqn:Hcreate.
  rewrite (main_chat_completion_run _ _ _ _ _ _ _ Hat Hcreate).
  destruct (try_block_result validation_text (ChatRequest.model req) r);
    (split; [set_solver|done]).
Qed.

(** ** Start-up *)

Lemma validate_config_run cfg w :
  config.validate_config cfg w =
    if bool_decide (config.GROQ_API_KEY cfg = "")
    then (Return false,
          World (heap w)
            (trace w ++ [Print "Missing required environment variables: GROQ_API_KEY"]))
    else (Return true, w).
Proof.
  unfold config.validate_config. simpl.
  unfold mbind, M_bind, config.getattr_truth. simpl.
  by destruct (bool_decide (config.GROQ_API_KEY cfg = "")).
Qed.

(** X7. [startup_event] fails fast without a key: when
    [config.GROQ_API_KEY] is empty it raises "Invalid configuration..."
    after printing which variable is missing, and [groq_service] keeps its
    value.  With a key, [groq_service] becomes a service holding exactly
    that key when the client can be constructed, and otherwise start-up
    raises "Failed to initialize Groq service: ..." and [groq_service]
    keeps its value.  The environment at the time of the call plays no
    part. *)
Theorem X7_startup_event Groq_new environ cfg groq_service w :
  (config.GROQ_API_KEY cfg = "" ->
   startup_event Groq_new environ cfg groq_service w =
     ((Raise (RuntimeError "Invalid configuration. Please check environment variables."),
       groq_service),
      World (heap w)
        (trace w ++ [Print "Missing required environment variables: GROQ_API_KEY"]))) /\
  (config.GROQ_API_KEY cfg <> "" ->
   forall client,
     Groq_new (config.GROQ_API_KEY cfg) = Return client ->
     startup_event Groq_new environ cfg groq_service w =
       ((Return tt, Some (GroqService.mk (config.GROQ_API_KEY cfg) client)),
        World (heap w)
          (trace w ++ [Print ("✅ " +:+ config.APP_NAME cfg +:+ " started successfully!")]))) /\
  (config.GROQ_API_KEY cfg <> "" ->
   forall e,
     Groq_new (config.GROQ_API_KEY cfg) = Raise e ->
     startup_event Groq_new environ cfg groq_service w =
       ((Raise (RuntimeError ("Failed to initialize Groq service: " +:+ str e)),
         groq_service),
        World (heap w)
          (trace w ++ [Print ("❌ Failed to initialize Groq service: " +:+ str e)]))).
Proof.
  unfold startup_event. rewrite validate_config_run.
  split; [|split].
  - intros Hkey. by rewrite bool_decide_eq_true_2.
  - intros Hkey client Hnew. rewrite bool_decide_eq_false_2 by done.
    unfold GroqService__init__. rewrite !bool_decide_eq_false_2 by done.
    by rewrite Hnew.
  - intros Hkey e Hnew. rewrite bool_decide_eq_false_2 by done.
    unfold GroqService__init__. rewrite !bool_decide_eq_false_2 by done.
    by rewrite Hnew.
Qed.

(** Start-up without a key, and with the key "gsk_sample" while the
    environment holds another one. *)
Lemma X7_sample :
  (startup_event Groq_new_ok ∅ keyless_config None sample_world).1.2 = None /\
  (startup_event Groq_new_ok {[ "GROQ_API_KEY" := "gsk_other" ]} sample_config None
     sample_world).1 =
    (Return tt, Some (GroqService.mk "gsk_sample" stub_succeeds)).
Proof.
  split.
  - by rewrite (proj1 (X7_startup_event Groq_new_ok ∅ keyless_config None sample_world)
                  eq_refl).
  - assert (Hkey : config.GROQ_API_KEY sample_config <> "") by discriminate.
    by rewrite (proj1 (proj2 (X7_startup_event Groq_new_ok {[ "GROQ_API_KEY" := "gsk_other" ]}
                                sample_config None sample_world)) Hkey stub_succeeds eq_refl).
Defined.

(** X8. [GroqService.__init__]: a non-empty [api_key] argument is the key
    used, whatever the environment holds; [None] and the empty string both
    fall back to the environment's GROQ_API_KEY; and a service that has
    been constructed never holds an empty key. *)
Theorem X8_init_key Groq_new environ api_key :
  (forall key,
     api_key = Some key -> key <> "" ->
     GroqService__init__ Groq_new environ api_key =
       match Groq_new key with
       | Return client => Return (GroqService.mk key client)
       | Raise e => Raise e
       end) /\
  (api_key = None \/ api_key = Some "" ->
   GroqService__init__ Groq_new environ api_key =
     GroqService__init__ Groq_new environ (environ !! "GROQ_API_KEY")) /\
  (forall service,
     GroqService__init__ Groq_new environ api_key = Return service ->
     GroqService.api_key service <> "").
Proof.
  split; [|split].
  - intros key -> Hkey. unfold GroqService__init__.
    by rewrite !bool_decide_eq_false_2 by done.
  - unfold GroqService__init__.
    intros [-> | ->]; simpl;
      destruct (environ !! "GROQ_API_KEY") as [key|]; try done;
      destruct (bool_decide (key = "")) eqn:Hkey; simpl; by rewrite ?Hkey.
  - intros service. unfold GroqService__init__.
    destruct (match api_key with
              | Some key => if bool_decide (key = "") then environ !! "GROQ_API_KEY" else Some key
              | None => environ !! "GROQ_API_KEY"
              end) as [key|]; [|done].
    case_bool_decide as Hkey; [done|].
    destruct (Groq_new key); [|done]. by intros [= <-].
Qed.

(** An empty argument with the key "gsk_env" in the environment. *)
Lemma X8_sample :
  GroqService__init__ Groq_new_ok {[ "GROQ_API_KEY" := "gsk_env" ]} (Some "") =
    Return (GroqService.mk "gsk_env" stub_succeeds) /\
  GroqService.api_key (GroqService.mk "gsk_env" stub_succeeds) <> "".
Proof.
  split.
  - by rewrite (proj1 (proj2 (X8_init_key Groq_new_ok {[ "GROQ_API_KEY" := "gsk_env" ]}
                                (Some ""))) (or_intror eq_refl)).
  - exact (proj2 (proj2 (X8_init_key Groq_new_ok {[ "GROQ_API_KEY" := "gsk_env" ]} (Some "")))
             _ eq_refl).
Defined.

(** ** The session controller, further *)

(** [send_chat_request] leaves the transcript and the status alone and
    posts at most one payload. *)
Lemma send_chat_request_frame post message model settings s :
  app.messages (app.send_chat_request post message model settings s).2 = app.messages s /\
  app.backend_status (app.send_chat_request post message model settings s).2
    = app.backend_status s /\
  (app.posted (app.send_chat_request post message model settings s).2 = app.posted s \/
   exists p,
     app.posted (app.send_chat_request post message model settings s).2 = app.posted s ++ [p]).
Proof.
  unfold app.send_chat_request.
  destruct (app.prepare_history (app.messages s) []) as [history|e]; [|by auto].
  destruct (post _) as [response|e]; [|by eauto].
  destruct (app.status_code response =? 200)%Z, (app.json response); by eauto.
Qed.



Lemma entry_lookups role content :
  entry role content !! "role" = Some role /\
  entry role content !! "content" = Some content.
Proof.
  split; [apply lookup_insert_eq|].
  unfold entry. rewrite lookup_insert_ne by done. apply lookup_singleton_eq.
Qed.

Lemma prepare_history_cases (msgs : list dict) :
  forall history,
    app.prepare_history msgs history =
      if decide (Forall readable msgs)
      then Return (history ++ (role_and_content <$> filter sent_role msgs))
      else Raise (KeyError "content").
Proof.
  induction msgs as [|msg msgs IH]; intros history.
  - simpl. by rewrite app_nil_r.
  - cbn [app.prepare_history]. rewrite filter_cons.
    destruct (decide (sent_role msg)) as [Hs|Hs].
    + rewrite bool_decide_eq_true_2 by exact Hs.
      destruct (msg !! "role") as [role|] eqn:Hr.
      * destruct (msg !! "content") as [content|] eqn:Hc.
        -- rewrite IH. destruct (decide (Forall readable msgs)) as [Hall|Hnot].
           ++ rewrite decide_True.
              ** rewrite <- app_assoc. simpl. unfold role_and_content.
                 by rewrite Hr, Hc.
              ** constructor; [|done]. intros _. by rewrite Hc.
           ++ rewrite decide_False; [done|]. by intros [_ ?]%Forall_cons.
        -- rewrite decide_False; [done|].
           intros [Hread _]%Forall_cons.
           destruct (Hread Hs) as [? Hsome]. congruence.
      * exfalso. revert Hs. unfold sent_role. rewrite Hr, !elem_of_cons, elem_of_nil.
        intros [Hu | [Ha | []]]; [discriminate Hu | discriminate Ha].
    + rewrite bool_decide_eq_false_2 by exact Hs. rewrite IH.
      destruct (decide (Forall readable msgs)) as [Hall|Hnot].
      * rewrite decide_True; [done|]. constructor; [|done]. by intros ?.
      * rewrite decide_False; [done|]. by intros [_ ?]%Forall_cons.
Qed.

(** X10. When a prompt is handled, the payload posted names the prompt
    twice: as its [message], and as the last entry of its [history],
    because the prompt is appended to the transcript before the history is
    taken from it. *)
Theorem X10_prompt_posted_twice post prompt selected_model settings s :
  prompt <> "" ->
  app.backend_status s = "healthy" ->
  Forall readable (app.messages s) ->
  exists p,
    app.posted (app.render_main_interface_chat_input post prompt selected_model settings s)
      = app.posted s ++ [p] /\
    app.message p = prompt /\
    app.history p =
      (role_and_content <$> filter sent_role (app.messages s)) ++ [entry "user" prompt].
Proof.
  intros Hprompt Hstatus Hall.
  unfold app.render_main_interface_chat_input.
  rewrite bool_decide_eq_false_2 by done.
  rewrite bool_decide_eq_false_2 by (by intros []).
  destruct (entry_lookups "user" prompt) as [Hr Hc].
  assert (Hsent : sent_role (entry "user" prompt))
    by (unfold sent_role; rewrite Hr; set_solver).
  assert (Hall' : Forall readable (app.messages s ++ [entry "user" prompt])).
  { apply Forall_app. split; [done|]. constructor; [|done]. intros _. by rewrite Hc. }
  unfold app.send_chat_request. simpl app.messages.
  fold (entry "user" prompt).
  rewrite prepare_history_cases, decide_True by done. simpl.
  rewrite filter_app, fmap_app, filter_cons, decide_True by done. simpl.
  assert (Hrc : role_and_content (entry "user" prompt) = entry "user" prompt)
    by (unfold role_and_content; by rewrite Hr, Hc).
  rewrite Hrc.
  exists (app.mkPayload prompt selected_model (app.settings_max_tokens settings)
            (app.settings_temperature settings)
            ((role_and_content <$> filter sent_role (app.messages s))
             ++ [entry "user" prompt])).
  split; [|done].
  destruct (post _) as [response|e].
  - destruct (app.status_code response =? 200)%Z, (app.json response) as [data|e];
      simpl; repeat case_match; done.
  - simpl. by rewrite lookup_singleton_eq.
Qed.

(** The prompt "again" on the transcript left by a failed first prompt. *)
Lemma X10_sample :
  exists p,
    app.posted session2 = app.posted session1 ++ [p] /\
    app.message p = "again" /\
    app.history p =
      (role_and_content <$> filter sent_role (app.messages session1))
      ++ [entry "user" "again"].
Proof.
  assert (Hprompt : "again" <> "") by discriminate.
  assert (Hall : Forall readable (app.messages session1)).
  { repeat constructor; intros _; by eexists. }
  exact (X10_prompt_posted_twice post_fails "again" "llama-3.1-8b-instant" sample_settings
           session1 Hprompt eq_refl Hall).
Defined.

(** X11. [send_chat_request] posts a payload exactly when every transcript
    entry with role "user" or "assistant" has a "content": then it posts
    one payload.  When such an entry lacks its content nothing is posted
    and the result is the error "Request failed: 'content'". *)
Theorem X11_missing_content_blocks_request post message model settings s :
  (Forall readable (app.messages s) ->
   exists p,
     app.posted (app.send_chat_request post message model settings s).2
       = app.posted s ++ [p]) /\
  (~ Forall readable (app.messages s) ->
   app.send_chat_request post message model settings s =
     ({[ "error" := "Request failed: 'content'" ]}, s)).
Proof.
  unfold app.send_chat_request. rewrite prepare_history_cases. split.
  - intros Hall. rewrite decide_True by done.
    destruct (post _) as [response|e]; [|by eexists].
    destruct (app.status_code response =? 200)%Z, (app.json response); by eexists.
  - intros Hnot. by rewrite decide_False.
Qed.

(** A transcript whose assistant entry has no content. *)
Lemma X11_sample :
  ~ Forall readable (app.messages session_without_content) /\
  app.send_chat_request post_fails "hi" "llama-3.1-8b-instant" sample_settings
    session_without_content =
    ({[ "error" := "Request failed: 'content'" ]}, session_without_content).
Proof.
  assert (Hnot : ~ Forall readable (app.messages session_without_content)).
  { intros [Hread _]%Forall_cons. destruct Hread as [? Hsome]; [|discriminate Hsome].
    unfold sent_role. rewrite lookup_singleton_eq. set_solver. }
  split; [exact Hnot|].
  exact (proj2 (X11_missing_content_blocks_request post_fails "hi" "llama-3.1-8b-instant"
                  sample_settings session_without_content) Hnot).
Defined.

(** X12. [check_backend_health] returns [True] exactly when the reply to
    [GET /health] has status 200, and exactly then the recorded status is
    "healthy"; the recorded status is never "unknown" afterwards; the
    transcript, the posted payloads and the model list are untouched. *)
Theorem X12_check_backend_health get_health s :
  ((StreamlitApp.check_backend_health get_health s).1 = true <->
   get_health = Return 200%Z) /\
  ((StreamlitApp.check_backend_health get_health s).1 = true <->
   app.backend_status
     (StreamlitApp.session (StreamlitApp.check_backend_health get_health s).2) = "healthy") /\
  app.backend_status
    (StreamlitApp.session (StreamlitApp.check_backend_health get_health s).2) <> "unknown" /\
  app.messages (StreamlitApp.session (StreamlitApp.check_backend_health get_health s).2)
    = app.messages (StreamlitApp.session s) /\
  app.posted (StreamlitApp.session (StreamlitApp.check_backend_health get_health s).2)
    = app.posted (StreamlitApp.session s) /\
  StreamlitApp.available_models (StreamlitApp.check_backend_health get_health s).2
    = StreamlitApp.available_models s.
Proof.
  unfold StreamlitApp.check_backend_health.
  destruct get_health as [code|e].
  - destruct (code =? 200)%Z eqn:Hcode; simpl.
    + apply Z.eqb_eq in Hcode as ->. by repeat split.
    + apply Z.eqb_neq in Hcode. repeat split; try done. by intros [= ->].
  - simpl. by repeat split.
Qed.

(** What one run does to a session whose status is neither "unknown" nor
    "healthy", when "Refresh Status" is not pressed. *)
Lemma run_while_offline i s :
  app.backend_status (StreamlitApp.session s) <> "unknown" ->
  app.backend_status (StreamlitApp.session s) <> "healthy" ->
  StreamlitApp.refresh_status i = false ->
  app.backend_status (StreamlitApp.session (StreamlitApp.run i s))
    = app.backend_status (StreamlitApp.session s) /\
  app.posted (StreamlitApp.session (StreamlitApp.run i s))
    = app.posted (StreamlitApp.session s) /\
  app.messages (StreamlitApp.session (StreamlitApp.run i s))
    = if StreamlitApp.clear_chat i then [] else app.messages (StreamlitApp.session s).
Proof.
  intros Hunknown Hhealthy Hrefresh.
  unfold StreamlitApp.run, StreamlitApp.render_main_interface.
  rewrite Hrefresh, bool_decide_eq_false_2 by done.
  destruct (StreamlitApp.clear_chat i); [done|].
  assert (Hfetch : forall reply,
    StreamlitApp.session (StreamlitApp.fetch_available_models reply s).2
      = StreamlitApp.session s).
  { intros reply. unfold StreamlitApp.fetch_available_models.
    destruct reply as [response|e]; [|done].
    destruct (StreamlitApp.status_code response =? 200)%Z; [|done].
    by destruct (StreamlitApp.json response). }
  set (s2 := if StreamlitApp.refresh_models i
             then (StreamlitApp.fetch_available_models (StreamlitApp.get_models_again i) s).2
             else s).
  assert (Hs2 : StreamlitApp.session s2 = StreamlitApp.session s)
    by (unfold s2; destruct (StreamlitApp.refresh_models i); [apply Hfetch | done]).
  destruct (chat_interface.render_model_selector _ _ _) as [selected_model|e];
    [|by rewrite Hs2].
  destruct (chat_interface.render_chat_history _); [|by rewrite Hs2].
  simpl. rewrite Hs2.
  unfold app.render_main_interface_chat_input.
  case_bool_decide; [done|]. by rewrite bool_decide_eq_true_2.
Qed.

(** X13. A failed health check is sticky.  Once the recorded status is
    neither "unknown" nor "healthy", no run of the script checks the
    health again unless "Refresh Status" is pressed: through any number of
    runs the status stays as it is, no payload is posted, and every
    submitted prompt is dropped without being recorded, so the transcript
    changes only when "Clear Chat" empties it. *)
Theorem X13_offline_status_is_sticky interactions s :
  app.backend_status (StreamlitApp.session s) <> "unknown" ->
  app.backend_status (StreamlitApp.session s) <> "healthy" ->
  Forall (fun i => StreamlitApp.refresh_status i = false) interactions ->
  app.backend_status (StreamlitApp.session (StreamlitApp.runs interactions s))
    = app.backend_status (StreamlitApp.session s) /\
  app.posted (StreamlitApp.session (StreamlitApp.runs interactions s))
    = app.posted (StreamlitApp.session s) /\
  app.messages (StreamlitApp.session (StreamlitApp.runs interactions s))
    = if bool_decide (Exists (fun i => StreamlitApp.clear_chat i = true) interactions)
      then [] else app.messages (StreamlitApp.session s).
Proof.
  revert s. induction interactions as [|i interactions IH]; intros s Hunknown Hhealthy Hall.
  - rewrite bool_decide_eq_false_2; [done|]. by intros ?%Exists_nil.
  - apply Forall_cons in Hall as [Hi Hall]. cbn [StreamlitApp.runs].
    destruct (run_while_offline i s Hunknown Hhealthy Hi) as (Hstatus & Hposted & Hmsgs).
    destruct (IH (StreamlitApp.run i s)) as (IHstatus & IHposted & IHmsgs);
      [by rewrite Hstatus | by rewrite Hstatus | done |].
    rewrite IHstatus, IHposted, IHmsgs, Hstatus, Hposted, Hmsgs.
    repeat split.
    destruct (StreamlitApp.clear_chat i) eqn:Hclear.
    + rewrite (bool_decide_eq_true_2 (Exists _ (i :: interactions)))
        by (by apply Exists_cons_hd).
      by case_bool_decide.
    + destruct (decide (Exists (fun i => StreamlitApp.clear_chat i = true) interactions))
        as [Hex|Hex].
      * rewrite !bool_decide_eq_true_2; [done | by apply Exists_cons_tl | done].
      * rewrite !bool_decide_eq_false_2; [done | | done].
        intros [Hhd|Htl]%Exists_cons; [congruence | done].
Qed.

(** Two runs with a submitted prompt on a session recorded "unhealthy",
    although every request would now succeed. *)
Lemma X13_sample :
  app.posted (StreamlitApp.session
                (StreamlitApp.runs [eager_inputs; eager_inputs] offline_state)) = [] /\
  app.messages (StreamlitApp.session
                  (StreamlitApp.runs [eager_inputs; eager_inputs] offline_state))
    = [entry "user" "earlier"].
Proof.
  assert (Hunknown : app.backend_status (StreamlitApp.session offline_state) <> "unknown")
    by discriminate.
  assert (Hhealthy : app.backend_status (StreamlitApp.session offline_state) <> "healthy")
    by discriminate.
  assert (Hall : Forall (fun i => StreamlitApp.refresh_status i = false)
                   [eager_inputs; eager_inputs]) by (by repeat constructor).
  destruct (X13_offline_status_is_sticky [eager_inputs; eager_inputs] offline_state
              Hunknown Hhealthy Hall) as (_ & Hposted & Hmsgs).
  split; [exact Hposted|].
  rewrite Hmsgs. rewrite bool_decide_eq_false_2; [done|].
  intros Hex. repeat (apply Exists_cons in Hex as [Hex|Hex]; [discriminate Hex|]).
  by apply Exists_nil in Hex.
Defined.

(** The reply 200 to [GET /health] on the state recorded "unhealthy". *)
Lemma X12_sample :
  Return 200%Z = Return 200%Z :> outcome Z /\
  app.backend_status
    (StreamlitApp.session
       (StreamlitApp.check_backend_health (Return 200%Z) offline_state).2) = "healthy".
Proof.
  split; [reflexivity|].
  apply (proj1 (proj2 (X12_check_backend_health (Return 200%Z) offline_state))).
  apply (proj1 (X12_check_backend_health (Return 200%Z) offline_state)).
  reflexivity.
Defined.

(** ** The model selector *)

Lemma index_spec x items :
  x ∈ items ->
  exists i, chat_interface.index x items = Return i /\ items !! i = Some x.
Proof.
  induction items as [|item items IH]; [by intros ?%elem_of_nil|].
  intros Hin. simpl. case_bool_decide as Heq.
  - exists 0. by subst.
  - apply elem_of_cons in Hin as [->|Hin]; [done|].
    destruct (IH Hin) as (i & -> & Hi). by exists (S i).
Qed.

(** X14. [render_model_selector] always hands [st.selectbox] a non-empty
    list of options and a position inside it: the offered models, or the
    default model alone when none is offered; the position is that of the
    default model when it is among the options, and 0 otherwise.  The
    [index] call never raises. *)
Theorem X14_selectbox_arguments available_models default_model :
  exists options i,
    chat_interface.selectbox_arguments available_models default_model
      = Return (options, i) /\
    options = match available_models with
              | [] => [default_model]
              | _ :: _ => available_models
              end /\
    i < length options /\
    (if decide (default_model ∈ options)
     then options !! i = Some default_model
     else i = 0).
Proof.
  unfold chat_interface.selectbox_arguments.
  set (options := match available_models with
                  | [] => [default_model]
                  | _ :: _ => available_models
                  end).
  assert (Hlen : 0 < length options).
  { unfold options. destruct available_models; simpl; lia. }
  case_bool_decide as Hin.
  - exists options, 0. rewrite decide_False by done. by repeat split.
  - destruct (index_spec default_model options Hin) as (i & -> & Hi).
    exists options, i. rewrite decide_True by done.
    repeat split; try done. by eapply lookup_lt_Some.
Qed.

(** ** The frontend's request at the backend *)

Lemma validate_json_history_None (history : list dict) d :
  d ∈ history -> d !! "content" = Some "" ->
  validate_history
    ((fun d : dict => RawChatMessage.mk (d !! "role") (d !! "content")) <$> history) = None.
Proof.
  intros Hin Hempty.
  destruct (validate_history _) as [msgs|] eqn:Hv; [exfalso|done].
  apply validate_history_spec in Hv as [Heq Hall].
  apply (list_elem_of_fmap_2 (fun d : dict => RawChatMessage.mk (d !! "role") (d !! "content")))
    in Hin.
  rewrite Heq, Hempty in Hin.
  apply list_elem_of_fmap in Hin as (msg & Hmsg & Hin').
  rewrite Forall_forall in Hall. specialize (Hall msg Hin').
  injection Hmsg as _ Hcontent. rewrite <- Hcontent in Hall. by compute in Hall.
Qed.

(** X15. An entry with empty content poisons the session: when the
    transcript holds a "user" or "assistant" entry whose content is the
    empty string (such as an empty answer of the model), the payload posted
    for any later message fails the backend's validation, because history
    contents must be non-empty, and is answered 422 whatever the state of
    the service. *)
Theorem X15_empty_entry_fails_validation post message model settings s msg :
  Forall readable (app.messages s) ->
  msg ∈ app.messages s ->
  sent_role msg ->
  msg !! "content" = Some "" ->
  exists p,
    app.posted (app.send_chat_request post message model settings s).2
      = app.posted s ++ [p] /\
    validate_ChatRequest (json_body p) = None /\
    forall validation_text groq_service DEBUG w,
      main.serve_post_chat validation_text groq_service DEBUG (json_body p) w
        = (main.mkJSONResponse 422 main.validation_errors_json, w).
Proof.
  intros Hall Hin Hsent Hempty.
  assert (Hv : forall p,
    app.history p = role_and_content <$> filter sent_role (app.messages s) ->
    validate_ChatRequest (json_body p) = None).
  { intros p Hp. unfold validate_ChatRequest, json_body. simpl.
    rewrite (validate_json_history_None (app.history p) (role_and_content msg)); [done| |].
    - rewrite Hp. apply list_elem_of_fmap_2. by apply list_elem_of_filter.
    - unfold role_and_content. rewrite Hempty. simpl.
      rewrite lookup_insert_ne by done. apply lookup_singleton_eq. }
  unfold app.send_chat_request.
  rewrite prepare_history_cases, decide_True by done. simpl.
  eexists (app.mkPayload message model _ _ _).
  split; [|split].
  - destruct (post _) as [response|e]; [|done].
    by destruct (app.status_code response =? 200)%Z, (app.json response).
  - by apply Hv.
  - intros validation_text groq_service DEBUG w. unfold main.serve_post_chat.
    by rewrite Hv.
Qed.

(** After an empty answer, the next message. *)
Lemma X15_sample :
  exists p,
    app.posted (app.send_chat_request post_fails "more" "llama-3.1-8b-instant"
                  sample_settings session_empty_answer).2
      = app.posted session_empty_answer ++ [p] /\
    validate_ChatRequest (json_body p) = None.
Proof.
  assert (Hall : Forall readable (app.messages session_empty_answer)).
  { repeat constructor; intros _; by eexists. }
  assert (Hin : entry "assistant" "" ∈ app.messages session_empty_answer)
    by (apply list_elem_of_In; right; left; reflexivity).
  assert (Hsent : sent_role (entry "assistant" "")).
  { unfold sent_role. rewrite (proj1 (entry_lookups "assistant" "")).
    apply list_elem_of_In. right. left. reflexivity. }
  destruct (X15_empty_entry_fails_validation post_fails "more" "llama-3.1-8b-instant"
              sample_settings session_empty_answer (entry "assistant" "")
              Hall Hin Hsent (proj2 (entry_lookups "assistant" "")))
    as (p & Hposted & Hv & _).
  exists p. by split.
Defined.

(** The payload that [send_chat_request] posts for a readable transcript. *)
Lemma send_chat_request_posts post message model settings s :
  Forall readable (app.messages s) ->
  app.posted (app.send_chat_request post message model settings s).2 =
    app.posted s ++
    [app.mkPayload message model (app.settings_max_tokens settings)
       (app.settings_temperature settings)
       (role_and_content <$> filter sent_role (app.messages s))].
Proof.
  intros Hall. unfold app.send_chat_request.
  rewrite prepare_history_cases, decide_True by done. simpl.
  destruct (post _) as [response|e]; [|done].
  by destruct (app.status_code response =? 200)%Z, (app.json response).
Qed.

(** What validation keeps of a payload it lets through: the message, and
    the history entry by entry. *)
Lemma validate_json_body p v :
  validate_ChatRequest (json_body p) = Some v ->
  ValidChatRequest.message v = app.message p /\
  exists msgs,
    ValidChatRequest.history v = Some msgs /\
    (fun d : dict => RawChatMessage.mk (d !! "role") (d !! "content")) <$> app.history p
      = raw_of <$> msgs.
Proof.
  unfold validate_ChatRequest, json_body. simpl.
  destruct (validate_history _) as [msgs|] eqn:Hhist; [|done]. simpl.
  match goal with
  | |- (if ?c then _ else _) = _ -> _ => destruct c; [|done]
  end.
  intros [= <-]. simpl. split; [done|]. exists msgs. split; [done|].
  by apply validate_history_spec in Hhist as [-> _].
Qed.

(** X16. The prompt reaches the provider twice.  For a handled prompt,
    when the payload posted passes the backend's validation, the messages
    that the backend hands to the remote client end with two identical
    user turns carrying the prompt: the one from the history and the one
    that [_format_messages] appends. *)
Theorem X16_prompt_reaches_provider_twice post prompt selected_model settings s :
  prompt <> "" ->
  app.backend_status s = "healthy" ->
  Forall readable (app.messages s) ->
  exists p,
    app.posted (app.render_main_interface_chat_input post prompt selected_model settings s)
      = app.posted s ++ [p] /\
    forall v,
      validate_ChatRequest (json_body p) = Some v ->
      exists front,
        outbound_of v = front ++ [user_turn prompt; user_turn prompt].
Proof.
  intros Hprompt Hstatus Hall.
  destruct (entry_lookups "user" prompt) as [Hr Hc].
  assert (Hall' : Forall readable (app.messages (app.append_message "user" prompt s))).
  { simpl. apply Forall_app. split; [done|]. constructor; [|done].
    intros _. fold (entry "user" prompt). by rewrite Hc. }
  pose proof (send_chat_request_posts post prompt selected_model settings _ Hall') as Hsend.
  unfold app.render_main_interface_chat_input.
  rewrite bool_decide_eq_false_2 by done.
  rewrite bool_decide_eq_false_2 by (by intros []).
  destruct (app.send_chat_request post prompt selected_model settings
              (app.append_message "user" prompt s)) as [response s2].
  simpl in Hsend. eexists. split.
  { destruct (response !! "error"); simpl; exact Hsend. }
  intros v Hv.
  destruct (validate_json_body _ _ Hv) as (Hmsg & msgs & Hsome & Hraws).
  simpl in Hmsg, Hraws. fold (entry "user" prompt) in Hraws.
  assert (Hsent : sent_role (entry "user" prompt)).
  { unfold sent_role. rewrite Hr. apply list_elem_of_In. left. reflexivity. }
  rewrite filter_app, filter_cons, decide_True, filter_nil, !fmap_app in Hraws by done.
  symmetry in Hraws.
  apply fmap_app_inv in Hraws as (msgs0 & last & _ & Hlast & ->).
  destruct last as [|[role content] [|? ?]]; try done.
  simpl in Hlast. unfold role_and_content in Hlast. rewrite Hr, Hc in Hlast. simpl in Hlast.
  fold (entry "user" prompt) in Hlast. rewrite Hr, Hc in Hlast. injection Hlast as <- <-.
  unfold outbound_of. rewrite Hsome, Hmsg. simpl.
  assert (Hallowed : allowed_role (ChatMessage.mk "user" prompt)).
  { unfold allowed_role. simpl. apply list_elem_of_In. right. left. reflexivity. }
  rewrite filter_app, fmap_app, filter_cons, decide_True, filter_nil by done.
  simpl. rewrite <- app_assoc. by eexists.
Qed.

(** The first prompt "hi" of a new session. *)
Lemma X16_sample :
  exists p,
    app.posted session1 = app.posted session0 ++ [p] /\
    validate_ChatRequest (json_body p) =
      Some (ValidChatRequest.mk "hi" "llama-3.1-8b-instant" 1000 default_temperature
              (Some [ChatMessage.mk "user" "hi"])) /\
    exists front,
      outbound_of (ValidChatRequest.mk "hi" "llama-3.1-8b-instant" 1000 default_temperature
                     (Some [ChatMessage.mk "user" "hi"]))
        = front ++ [user_turn "hi"; user_turn "hi"].
Proof.
  assert (Hprompt : "hi" <> "") by discriminate.
  destruct (X16_prompt_reaches_provider_twice post_fails "hi" "llama-3.1-8b-instant"
              sample_settings session0 Hprompt eq_refl (Forall_nil_2 _))
    as (p & Hposted & Hout).
  assert (Hp : p = app.mkPayload "hi" "llama-3.1-8b-instant" 1000 default_temperature
                     [entry "user" "hi"]).
  { apply (inj (app (app.posted session0))) in Hposted. by injection Hposted as <-. }
  exists p. split; [exact Hposted|]. subst p. split; [reflexivity|].
  exact (Hout _ eq_refl).
Defined.

(** ** [validate_setup.py] *)






Lemma check_packages_spec import_module packages :
  forall all_success messages result,
    validate_setup.check_packages import_module packages all_success messages
      = Return result ->
    (result.1 = true <->
     all_success = true /\
     Forall (fun package =>
               import_module (validate_setup.replace_underscores package)
                 = validate_setup.Imported) packages) /\
    length result.2 = length messages + length packages.
Proof.
  induction packages as [|package packages IH]; intros all_success messages result; simpl.
  - intros [= <-]. simpl. split; [|lia]. split; [by intros -> | by intros [-> _]].
  - destruct (import_module (validate_setup.replace_underscores package)) eqn:Himp;
      [| |done]; intros Hrun; apply IH in Hrun as [Hok Hlen];
      rewrite length_app in Hlen; simpl in Hlen; (split; [|lia]);
      rewrite Hok, Forall_cons, Himp.
    + split; [intros [? ?]; by repeat split | intros [? [_ ?]]; by split].
    + split; [by intros [? _] | by intros [_ [? _]]].
Qed.

(** X19. When [check_required_packages] returns, it reports success
    exactly if the seven modules it asks for can be imported, and it gives
    one message per package.  The modules asked for are the package names
    with every underscore turned into a dot, so for "python_dotenv" the
    module asked for is "python.dotenv". *)
Theorem X19_required_packages import_module all_success messages :
  validate_setup.check_required_packages import_module = Return (all_success, messages) ->
  (all_success = true <->
   Forall (fun name => import_module name = validate_setup.Imported)
     ["fastapi"; "uvicorn"; "streamlit"; "groq"; "pydantic"; "requests"; "python.dotenv"]) /\
  length messages = 7.
Proof.
  intros Hrun. apply check_packages_spec in Hrun as [Hok Hlen]. simpl in Hok, Hlen.
  split; [|exact Hlen].
  rewrite Hok.
  change ["fastapi"; "uvicorn"; "streamlit"; "groq"; "pydantic"; "requests"; "python.dotenv"]
    with (validate_setup.replace_underscores <$> validate_setup.required_packages).
  rewrite Forall_fmap. split; [by intros [_ ?] | by intros ?].
Qed.

(** Every module importable except "python.dotenv". *)
Lemma X19_sample :
  validate_setup.check_required_packages import_all_but_python =
    Return (false,
            ["✅ fastapi"; "✅ uvicorn"; "✅ streamlit"; "✅ groq"; "✅ pydantic";
             "✅ requests"; "❌ python_dotenv (missing)"]) /\
  length ["✅ fastapi"; "✅ uvicorn"; "✅ streamlit"; "✅ groq"; "✅ pydantic";
          "✅ requests"; "❌ python_dotenv (missing)"] = 7.
Proof.
  split; [reflexivity|].
  exact (proj2 (X19_required_packages import_all_but_python false _ eq_refl)).
Defined.

(** ** The transcript over a whole session *)

Lemma fetch_available_models_session reply s :
  StreamlitApp.session (StreamlitApp.fetch_available_models reply s).2
    = StreamlitApp.session s.
Proof.
  unfold StreamlitApp.fetch_available_models.
  destruct reply as [response|e]; [|done].
  destruct (StreamlitApp.status_code response =? 200)%Z; [|done].
  by destruct (StreamlitApp.json response).
Qed.

Lemma check_backend_health_messages reply s :
  app.messages (StreamlitApp.session (StreamlitApp.check_backend_health reply s).2)
    = app.messages (StreamlitApp.session s).
Proof.
  unfold StreamlitApp.check_backend_health.
  destruct reply as [code|e]; [|done]. by destruct (code =? 200)%Z.
Qed.

(** One submitted prompt leaves the transcript as it is or appends a user
    entry and an assistant entry. *)
Lemma chat_input_messages post prompt selected_model settings s :
  app.messages (app.render_main_interface_chat_input post prompt selected_model settings s)
    = app.messages s \/
  exists content,
    app.messages (app.render_main_interface_chat_input post prompt selected_model settings s)
      = app.messages s ++ [entry "user" prompt; entry "assistant" content].
Proof.
  unfold app.render_main_interface_chat_input.
  case_bool_decide; [by left|]. case_bool_decide; [by left|]. right.
  pose proof (send_chat_request_frame post prompt selected_model settings
                (app.append_message "user" prompt s)) as (Hm & _ & _).
  destruct (app.send_chat_request post prompt selected_model settings
              (app.append_message "user" prompt s)) as [response s2].
  simpl in Hm.
  destruct (response !! "error") as [error_msg|]; eexists; simpl;
    by rewrite Hm, <- app_assoc.
Qed.

Lemma run_keeps_chat_entries i s :
  Forall chat_entry (app.messages (StreamlitApp.session s)) ->
  Forall chat_entry (app.messages (StreamlitApp.session (StreamlitApp.run i s))).
Proof.
  intros Hall. unfold StreamlitApp.run.
  destruct (StreamlitApp.refresh_status i); [by rewrite check_backend_health_messages|].
  unfold StreamlitApp.render_main_interface.
  set (s1 := if bool_decide (app.backend_status (StreamlitApp.session s) = "unknown")
             then _ else s).
  assert (H1 : app.messages (StreamlitApp.session s1) = app.messages (StreamlitApp.session s)).
  { unfold s1. case_bool_decide; [|done].
    pose proof (check_backend_health_messages (StreamlitApp.get_health i) s) as Hm.
    destruct (StreamlitApp.check_backend_health (StreamlitApp.get_health i) s)
      as [[] s']; simpl in Hm; [|done].
    by rewrite fetch_available_models_session. }
  destruct (StreamlitApp.clear_chat i); [by constructor|].
  set (s2 := if StreamlitApp.refresh_models i then _ else s1).
  assert (H2 : app.messages (StreamlitApp.session s2) = app.messages (StreamlitApp.session s)).
  { unfold s2. destruct (StreamlitApp.refresh_models i); [|done].
    by rewrite fetch_available_models_session. }
  destruct (chat_interface.render_model_selector _ _ _) as [selected_model|e];
    [|by rewrite H2].
  destruct (chat_interface.render_chat_history _); [|by rewrite H2].
  simpl.
  destruct (chat_input_messages (StreamlitApp.post i) (StreamlitApp.prompt i) selected_model
              (StreamlitApp.settings i) (StreamlitApp.session s2)) as [-> | (content & ->)];
    rewrite H2; [done|].
  apply Forall_app. split; [done|].
  repeat constructor; eexists _, _; (split; [reflexivity|]); by auto.
Qed.

(** X20. The transcript stays well formed.  Through any sequence of runs
    of the script, every entry of the transcript is a "user" or an
    "assistant" entry with a content, provided that held at the start (as
    it does for the empty transcript of a new session); so the loop that
    prepares the history never meets an entry without content. *)
Theorem X20_transcript_stays_well_formed interactions s :
  Forall chat_entry (app.messages (StreamlitApp.session s)) ->
  Forall chat_entry
    (app.messages (StreamlitApp.session (StreamlitApp.runs interactions s))) /\
  Forall readable
    (app.messages (StreamlitApp.session (StreamlitApp.runs interactions s))).
Proof.
  intros Hall.
  assert (Hentries : Forall chat_entry
            (app.messages (StreamlitApp.session (StreamlitApp.runs interactions s)))).
  { revert s Hall. induction interactions as [|i interactions IH]; intros s Hall; [done|].
    simpl. apply IH. by apply run_keeps_chat_entries. }
  split; [exact Hentries|].
  eapply Forall_impl; [exact Hentries|].
  intros msg (role & content & -> & _) _.
  rewrite (proj2 (entry_lookups role content)). by eexists.
Qed.

(** A new session after a first run that connects and handles "hello". *)
Lemma X20_sample :
  Forall chat_entry (app.messages (StreamlitApp.session new_state)) /\
  Forall readable
    (app.messages (StreamlitApp.session (StreamlitApp.runs [eager_inputs] new_state))) /\
  app.messages (StreamlitApp.session (StreamlitApp.runs [eager_inputs] new_state))
    = [entry "user" "hello"; entry "assistant" "T"].
Proof.
  assert (Hall : Forall chat_entry (app.messages (StreamlitApp.session new_state)))
    by constructor.
  split; [exact Hall|]. split; [|reflexivity].
  exact (proj2 (X20_transcript_stays_well_formed [eager_inputs] new_state Hall)).
Defined.
